(** * The WebSocket gateway of xiaozhi-server: [core/gateway_server.py]

    A shallow embedding of [GatewayWebSocketServer] and the properties of
    its handshake gate, message normalisation, backend call and reply
    frames, with the log filter of the same file and the configuration
    check of [config/settings.py].

    One connection is modelled at a time.  What the gateway has done to
    the outside is recorded in a [world]: the frames it has sent, whether
    it has called [websocket.close()], and the calls it has made to
    [client.chat.completions.create].  A handler either returns or is left
    by an exception ([outcome]): the decoder may raise something else than
    [JSONDecodeError], and a reply that cannot be encoded is not sent.
    The peer is taken to stay connected until the last of its frames is
    answered.

    The JSON decoder, the upstream chat service and the limits of the
    interpreter the JSON encoder runs under are Section variables, so
    every general theorem holds for each of them; a concrete decoder
    ([Json.loads]) is used for the closed examples. *)

From Stdlib Require Import ZArith Ascii String Init.Byte.
From stdpp Require Import base decidable option list gmap strings.

Local Open Scope string_scope.
Local Open Scope list_scope.

Set Warnings "-register-all".

(** ** Python values *)

(** A [float]: the binary64 number [(-1) ^ negative * m * 2 ^ e] (zero is
    [m = 0]), an infinity, or not a number. *)
Inductive pyfloat : Type :=
  | FBin (negative : bool) (m e : Z)
  | FInf (negative : bool)
  | FNan.

(** [f == 0.0] *)
Definition float_is_zero (f : pyfloat) : bool :=
  match f with
  | FBin _ m _ => (m =? 0)%Z
  | FInf _ | FNan => false
  end.

(** What [json.loads] can return, and what the gateway builds from it.
    A [str] is held as its UTF-8 bytes, a lone surrogate (which Python's
    [str] allows) as the three bytes the same scheme gives it. *)
Inductive value : Type :=
  | VNone
  | VBool (b : bool)
  | VInt (z : Z)
  | VFloat (f : pyfloat)
  | VStr (s : string)
  | VList (l : list value)
  | VDict (d : list (string * value)).

(** A Python [dict] with [str] keys, in insertion order. *)
Abbreviation dict := (list (string * value)).

(** Python truth value: [bool(v)]. *)
Definition truthy (v : value) : bool :=
  match v with
  | VNone => false
  | VBool b => b
  | VInt z => negb (z =? 0)%Z
  | VFloat f => negb (float_is_zero f)
  | VStr s => negb (String.eqb s "")
  | VList l => match l with [] => false | _ => true end
  | VDict d => match d with [] => false | _ => true end
  end.

(** [a or b] *)
Definition py_or (a b : value) : value := if truthy a then a else b.

(** [d[k]] when present. *)
Fixpoint dict_lookup (d : dict) (k : string) : option value :=
  match d with
  | [] => None
  | (k', v) :: d' => if String.eqb k' k then Some v else dict_lookup d' k
  end.

(** [d.get(k)]: [None] when the key is absent. *)
Definition dict_get (d : dict) (k : string) : value :=
  match dict_lookup d k with
  | Some v => v
  | None => VNone
  end.

(** [d[k] = v]: a present key keeps its place, a new key goes last. *)
Fixpoint dict_set (d : dict) (k : string) (v : value) : dict :=
  match d with
  | [] => [(k, v)]
  | (k', v') :: d' =>
      if String.eqb k' k then (k', v) :: d' else (k', v') :: dict_set d' k v
  end.

(** An [Optional[str]] as a Python value. *)
Definition of_opt_str (o : option string) : value :=
  match o with
  | Some s => VStr s
  | None => VNone
  end.

(** The [str] holds a lone surrogate: in UTF-8 bytes, [0xED] followed by
    a byte from [0xA0] to [0xBF]. *)
Fixpoint has_surrogate (s : string) : bool :=
  match s with
  | String a rest =>
      match rest with
      | String b _ =>
          ((N_of_ascii a =? 237) && (160 <=? N_of_ascii b)
           && (N_of_ascii b <=? 191))%N
          || has_surrogate rest
      | EmptyString => false
      end
  | EmptyString => false
  end.

(** The text [json.dumps(v, ensure_ascii=False)] gives can be encoded as
    UTF-8, which [websocket.send] does with it: no [str] in [v], key or
    value, holds a lone surrogate. *)
Fixpoint encodable (v : value) : bool :=
  match v with
  | VStr s => negb (has_surrogate s)
  | VList l => forallb encodable l
  | VDict d =>
      forallb (λ kv, let '(k, x) := kv in
                     negb (has_surrogate k) && encodable x) d
  | VNone | VBool _ | VInt _ | VFloat _ => true
  end.

(** What [json.loads] does with a text: it returns a value, raises
    [JSONDecodeError], or raises something else ([RecursionError] on deep
    nesting, [ValueError] on an integer of too many digits). *)
Inductive loaded : Type :=
  | Loaded (v : value)
  | JSONDecodeError
  | LoadRaised (exc : string).

(** ** The JSON decoder

    [Json.loads] follows the decoder of Python's [json] module on the
    UTF-8 text of a frame: white space, the constants, integers and
    floats, strings with their escapes (control characters refused, as in
    strict mode), arrays and objects, and nothing but white space after
    the value.  The errors come in the order the decoder meets them. *)
Module Json.

Local Open Scope char_scope.

(** The two limits of the interpreter the decoder and the encoder run
    into: how many arrays and objects may nest inside the outermost one
    before [RecursionError] is raised, which is what the call stack
    leaves of the recursion limit, and how many digits an integer may
    have before [int] and [str] raise [ValueError]. *)
Record limits : Type := {
  max_depth : nat;
  int_max_str_digits : nat
}.

(** CPython with its defaults: 4300 digits, and of the recursion limit
    of 1000 what the call stack of a handler may leave, 900 say. *)
Definition cpython : limits :=
  {| max_depth := 900; int_max_str_digits := 4300 |}.

(** The result of a scanning step: found, no valid JSON here
    ([JSONDecodeError]), or another exception. *)
Inductive scan (A : Type) : Type :=
  | Found (a : A)
  | Invalid
  | Fatal (exc : string).
Arguments Found {A} a.
Arguments Invalid {A}.
Arguments Fatal {A} exc.

Definition bind {A B : Type} (x : scan A) (k : A → scan B) : scan B :=
  match x with
  | Found a => k a
  | Invalid => Invalid
  | Fatal exc => Fatal exc
  end.

Definition lift {A : Type} (x : option A) : scan A :=
  match x with
  | Some a => Found a
  | None => Invalid
  end.

Definition quote : ascii := "034".
Definition backslash : ascii := "\".

Definition is_ws (c : ascii) : bool :=
  (c =? " ") || (c =? "009") || (c =? "010") || (c =? "013").

Fixpoint skip_ws (s : string) : string :=
  match s with
  | String c r => if is_ws c then skip_ws r else s
  | EmptyString => s
  end.

Definition digit_val (c : ascii) : option Z :=
  let n := Z.of_N (N_of_ascii c) in
  if (48 <=? n)%Z && (n <=? 57)%Z then Some (n - 48)%Z else None.

Definition hex_val (c : ascii) : option N :=
  let n := N_of_ascii c in
  if (48 <=? n)%N && (n <=? 57)%N then Some (n - 48)%N
  else if (65 <=? n)%N && (n <=? 70)%N then Some (n - 55)%N
  else if (97 <=? n)%N && (n <=? 102)%N then Some (n - 87)%N
  else None.

(** The longest run of decimal digits at the head of [s]: its digits,
    most significant first, and what follows. *)
Fixpoint span_digits (s : string) : list Z * string :=
  match s with
  | String c r =>
      match digit_val c with
      | Some d => let '(ds, r') := span_digits r in (d :: ds, r')
      | None => ([], s)
      end
  | EmptyString => ([], s)
  end.

Definition Z_of_digits (ds : list Z) : Z :=
  fold_left (λ acc d, (10 * acc + d)%Z) ds 0%Z.

(** The integer part of [NUMBER_RE]: [0], or a run of digits that does
    not start with [0]. *)
Definition scan_int_part (s : string) : option (list Z * string) :=
  match s with
  | String c r =>
      if c =? "0" then Some ([0%Z], r)
      else match span_digits s with
           | ([], _) => None
           | (ds, r') => Some (ds, r')
           end
  | EmptyString => None
  end.

(** [(\.[0-9]+)?] *)
Definition scan_frac (s : string) : option (list Z) * string :=
  match s with
  | String c r =>
      if c =? "." then
        match span_digits r with
        | ([], _) => (None, s)
        | (ds, r') => (Some ds, r')
        end
      else (None, s)
  | EmptyString => (None, s)
  end.

(** [([eE][-+]?[0-9]+)?] *)
Definition scan_exp (s : string) : option Z * string :=
  match s with
  | String c r =>
      if (c =? "e") || (c =? "E") then
        let '(neg, r1) :=
          match r with
          | String sg r1 =>
              if sg =? "-" then (true, r1)
              else if sg =? "+" then (false, r1)
              else (false, r)
          | EmptyString => (false, r)
          end in
        match span_digits r1 with
        | ([], _) => (None, s)
        | (ds, r') =>
            (Some (if neg then - Z_of_digits ds else Z_of_digits ds)%Z, r')
        end
      else (None, s)
  | EmptyString => (None, s)
  end.

(** The integer nearest to [n / d], a tie going to the even one. *)
Definition round_ratio (n d : Z) : Z :=
  let q := (n / d)%Z in
  let r := (n mod d)%Z in
  if (2 * r <? d)%Z then q
  else if (d <? 2 * r)%Z then (q + 1)%Z
  else if Z.even q then q else (q + 1)%Z.

(** The binary64 number nearest to [n / d], for positive [n] and [d]. *)
Definition float_of_ratio (neg : bool) (n d : Z) : pyfloat :=
  let t := (Z.log2 n - Z.log2 d)%Z in
  let lg :=
    if (if (0 <=? t)%Z then (d * 2 ^ t <=? n)%Z
        else (d <=? n * 2 ^ (- t))%Z)
    then t else (t - 1)%Z in
  let p := Z.max (lg - 52) (-1074) in
  let q :=
    if (0 <=? p)%Z then round_ratio n (d * 2 ^ p)
    else round_ratio (n * 2 ^ (- p)) d in
  let '(q, p) :=
    if (q =? 2 ^ 53)%Z then ((2 ^ 52)%Z, (p + 1)%Z) else (q, p) in
  if (971 <? p)%Z then FInf neg
  else if (q =? 0)%Z then FBin neg 0 0
  else FBin neg q p.

(** [float(literal)] for the literal [m * 10 ^ e] with [0 <= m]: the
    nearest binary64 number, an infinity beyond the largest one. *)
Definition float_of_decimal (neg : bool) (m e : Z) : pyfloat :=
  if (m =? 0)%Z then FBin neg 0 0
  else
    let L := Z.log2 m in
    if (0 <=? e)%Z && (1025 <=? L + 3 * e)%Z then FInf neg
    else if (e <? 0)%Z && (L + 1 + 3 * e <=? -1076)%Z then FBin neg 0 0
    else if (0 <=? e)%Z then float_of_ratio neg (m * 10 ^ e) 1
    else float_of_ratio neg m (10 ^ (- e)).

(** A number: [int] without fraction and exponent, [float] otherwise. *)
Definition scan_number (lim : limits) (s : string)
  : scan (value * string) :=
  let '(neg, s1) :=
    match s with
    | String c r => if c =? "-" then (true, r) else (false, s)
    | EmptyString => (false, s)
    end in
  match scan_int_part s1 with
  | None => Invalid
  | Some (ds, s2) =>
      let '(frac, s3) := scan_frac s2 in
      let '(exp, s4) := scan_exp s3 in
      match frac, exp with
      | None, None =>
          if Nat.ltb (int_max_str_digits lim) (length ds)
          then Fatal "ValueError"
          else Found (VInt (if neg then - Z_of_digits ds
                            else Z_of_digits ds)%Z, s4)
      | _, _ =>
          let fs := default [] frac in
          Found (VFloat (float_of_decimal neg (Z_of_digits (ds ++ fs))
                           (default 0 exp - Z.of_nat (length fs))%Z), s4)
      end
  end.

(** [s] is [lit] followed by something; that something. *)
Fixpoint strip_prefix (lit s : string) : option string :=
  match lit, s with
  | EmptyString, _ => Some s
  | String a lit', String b s' =>
      if a =? b then strip_prefix lit' s' else None
  | String _ _, EmptyString => None
  end.

(** [chr(cp)] in UTF-8 (a lone surrogate is kept, in three bytes). *)
Definition utf8 (cp : N) : string :=
  let b (n : N) := ascii_of_N n in
  let cont (n : N) := b (128 + n mod 64)%N in
  if (cp <? 128)%N then String (b cp) EmptyString
  else if (cp <? 2048)%N then
    String (b (192 + cp / 64)%N) (String (cont cp) EmptyString)
  else if (cp <? 65536)%N then
    String (b (224 + cp / 4096)%N)
      (String (cont (cp / 64)%N) (String (cont cp) EmptyString))
  else
    String (b (240 + cp / 262144)%N)
      (String (cont (cp / 4096)%N)
         (String (cont (cp / 64)%N) (String (cont cp) EmptyString))).

Definition hex4 (a b c d : ascii) : option N :=
  x ← hex_val a; y ← hex_val b; z ← hex_val c; t ← hex_val d;
  Some (((x * 16 + y) * 16 + z) * 16 + t)%N.

(** The escapes other than [\u]. *)
Definition BACKSLASH (c : ascii) : option ascii :=
  if c =? quote then Some quote
  else if c =? backslash then Some backslash
  else if c =? "/" then Some "/"
  else if c =? "b" then Some "008"
  else if c =? "f" then Some "012"
  else if c =? "n" then Some "010"
  else if c =? "r" then Some "013"
  else if c =? "t" then Some "009"
  else None.

(** The second half of a surrogate pair at the head of [s]. *)
Definition low_surrogate (s : string) : option (N * string) :=
  match s with
  | String b1 (String u1 (String a (String b (String c (String d r))))) =>
      if (b1 =? backslash) && (u1 =? "u") then
        lo ← hex4 a b c d;
        if (56320 <=? lo)%N && (lo <=? 57343)%N then Some (lo, r) else None
      else None
  | _ => None
  end.

(** [scanstring], from the character after the opening quote: the
    string and what follows its closing quote. *)
Fixpoint scanstring (s : string) : option (string * string) :=
  match s with
  | EmptyString => None
  | String c r =>
      if c =? quote then Some (EmptyString, r)
      else if c =? backslash then
        match r with
        | EmptyString => None
        | String e r1 =>
            if e =? "u" then
              match r1 with
              | String a (String b (String c1 (String d r2))) =>
                  uni ← hex4 a b c1 d;
                  match
                    (if (55296 <=? uni)%N && (uni <=? 56319)%N
                     then low_surrogate r2 else None)
                  with
                  | Some (lo, _) =>
                      match r2 with
                      | String _ (String _ (String _ (String _
                          (String _ (String _ r3))))) =>
                          '(str, rest) ← scanstring r3;
                          Some (utf8 (65536 + ((uni - 55296) * 1024
                                               + (lo - 56320)))%N
                                  +:+ str, rest)
                      | _ => None
                      end
                  | None =>
                      '(str, rest) ← scanstring r2;
                      Some (utf8 uni +:+ str, rest)
                  end
              | _ => None
              end
            else
              ch ← BACKSLASH e;
              '(str, rest) ← scanstring r1;
              Some (String ch str, rest)
        end
      else if (N_of_ascii c <? 32)%N then None
      else
        '(str, rest) ← scanstring r;
        Some (String c str, rest)
  end.

(** The constants and numbers of [scan_once]. *)
Definition scan_atom (lim : limits) (s : string) : scan (value * string) :=
  match strip_prefix "null" s, strip_prefix "true" s,
        strip_prefix "false" s with
  | Some rest, _, _ => Found (VNone, rest)
  | _, Some rest, _ => Found (VBool true, rest)
  | _, _, Some rest => Found (VBool false, rest)
  | None, None, None =>
      match scan_number lim s with
      | Found res => Found res
      | Fatal exc => Fatal exc
      | Invalid =>
          match strip_prefix "NaN" s, strip_prefix "Infinity" s,
                strip_prefix "-Infinity" s with
          | Some rest, _, _ => Found (VFloat FNan, rest)
          | _, Some rest, _ => Found (VFloat (FInf false), rest)
          | _, _, Some rest => Found (VFloat (FInf true), rest)
          | None, None, None => Invalid
          end
      end
  end.

(** [scan_once], [JSONArray] and [JSONObject].  [room] is how many more
    arrays and objects may nest; [fuel] bounds the number of steps, and
    twice the length of the text is enough of it. *)
Fixpoint scan_once (lim : limits) (fuel room : nat) (s : string)
  : scan (value * string) :=
  match fuel with
  | O => Invalid
  | S fuel =>
      match s with
      | EmptyString => Invalid
      | String c r =>
          if c =? quote then
            bind (lift (scanstring r))
                 (λ '(str, rest), Found (VStr str, rest))
          else if c =? "{" then
            match room with
            | O => Fatal "RecursionError"
            | S room =>
                match skip_ws r with
                | String c1 r1 =>
                    if c1 =? "}" then Found (VDict [], r1)
                    else if c1 =? quote
                    then JSONObject lim fuel room [] r1
                    else Invalid
                | EmptyString => Invalid
                end
            end
          else if c =? "[" then
            match room with
            | O => Fatal "RecursionError"
            | S room =>
                match skip_ws r with
                | String c1 r1 =>
                    if c1 =? "]" then Found (VList [], r1)
                    else JSONArray lim fuel room [] (skip_ws r)
                | EmptyString => Invalid
                end
            end
          else scan_atom lim s
      end
  end
(** from the first element on *)
with JSONArray (lim : limits) (fuel room : nat) (values : list value)
    (s : string) : scan (value * string) :=
  match fuel with
  | O => Invalid
  | S fuel =>
      bind (scan_once lim fuel room s) (λ '(v, s1),
        match skip_ws s1 with
        | String c r =>
            if c =? "]" then Found (VList (values ++ [v]), r)
            else if c =? ","
            then JSONArray lim fuel room (values ++ [v]) (skip_ws r)
            else Invalid
        | EmptyString => Invalid
        end)
  end
(** from the character after the opening quote of a key on *)
with JSONObject (lim : limits) (fuel room : nat) (pairs : dict)
    (s : string) : scan (value * string) :=
  match fuel with
  | O => Invalid
  | S fuel =>
      bind (lift (scanstring s)) (λ '(key, s1),
        match skip_ws s1 with
        | String c s2 =>
            if c =? ":" then
              bind (scan_once lim fuel room (skip_ws s2)) (λ '(v, s3),
                let pairs := dict_set pairs key v in
                match skip_ws s3 with
                | String c1 r =>
                    if c1 =? "}" then Found (VDict pairs, r)
                    else if c1 =? "," then
                      match skip_ws r with
                      | String c2 r' =>
                          if c2 =? quote
                          then JSONObject lim fuel room pairs r'
                          else Invalid
                      | EmptyString => Invalid
                      end
                    else Invalid
                | EmptyString => Invalid
                end)
            else Invalid
        | EmptyString => Invalid
        end)
  end.

(** [json.loads(s)] *)
Definition loads (lim : limits) (s : string) : loaded :=
  match scan_once lim (2 * String.length s + 2) (S (max_depth lim))
                  (skip_ws s) with
  | Found (obj, rest) =>
      match skip_ws rest with
      | EmptyString => Loaded obj
      | String _ _ => JSONDecodeError
      end
  | Invalid => JSONDecodeError
  | Fatal exc => LoadRaised exc
  end.

(** The digits of [str(n)]. *)
Definition decimal_digits (n : Z) : nat :=
  match n with
  | Z0 => 1
  | Zpos p | Zneg p => Decimal.nb_digits (Pos.to_uint p)
  end.

(** The encoder on [v] with [room] levels of nesting left: the exception
    that leaves it, if any.  An integer of too many digits has no [str];
    a list or an object is entered as long as there is room. *)
Fixpoint encode_error (lim : limits) (room : nat) (v : value)
  : option string :=
  match v with
  | VInt n =>
      if Nat.ltb (int_max_str_digits lim) (decimal_digits n)
      then Some "ValueError"%string
      else None
  | VList l =>
      match room with
      | O => Some "RecursionError"%string
      | S room' =>
          (fix items (l : list value) : option string :=
             match l with
             | [] => None
             | x :: l' =>
                 match encode_error lim room' x with
                 | Some exc => Some exc
                 | None => items l'
                 end
             end) l
      end
  | VDict d =>
      match room with
      | O => Some "RecursionError"%string
      | S room' =>
          (fix items (d : list (string * value)) : option string :=
             match d with
             | [] => None
             | (_, x) :: d' =>
                 match encode_error lim room' x with
                 | Some exc => Some exc
                 | None => items d'
                 end
             end) d
      end
  | VNone | VBool _ | VFloat _ | VStr _ => None
  end.

(** [json.dumps(payload, ensure_ascii=False)] on a payload the handler
    has built: the exception it raises, if any.  The payload itself is
    entered; [max_depth] is the room left for its values. *)
Definition dumps_error (lim : limits) (payload : dict) : option string :=
  encode_error lim (S (max_depth lim)) (VDict payload).

End Json.

(** ** The handshake headers *)

Definition lower_ascii (c : ascii) : ascii :=
  let n := nat_of_ascii c in
  if Nat.leb 65 n && Nat.leb n 90 then ascii_of_nat (n + 32) else c.

(** [str.lower()] on a header field name (field names are ASCII). *)
Fixpoint lower (s : string) : string :=
  match s with
  | EmptyString => EmptyString
  | String c s' => String (lower_ascii c) (lower s')
  end.

(** Modelled from the spec: the header container behind
    [websocket.request.headers], which belongs to the websockets library
    and is not part of the sources.  Section 6 of the spec describes the
    device header as case-insensitive: the container keeps, for every
    field name folded to lower case, the values received under it, in
    arrival order. *)
Abbreviation Headers := (gmap string (list string)).

(** Modelled from the spec: one header line stored in the container,
    [headers[key] = val]. *)
Definition Headers_setitem (h : Headers) (key val : string) : Headers :=
  <[lower key := default [] (h !! lower key) ++ [val]]> h.

(** Modelled from the spec: the container of an upgrade request whose
    header lines are [lines], as the handler receives it. *)
Definition Headers_of_lines (lines : list (string * string)) : Headers :=
  fold_left (λ h kv, Headers_setitem h kv.1 kv.2) lines ∅.

(** Modelled from the spec: [dict(headers)] on the container, one entry
    per folded name.  The spec does not speak of a name received more than
    once; the container has no single value for it and the conversion
    raises, which is [None] here. *)
Definition py_dict (h : Headers) : option (gmap string string) :=
  if bool_decide (map_Forall (λ _ vs, length vs = 1) h)
  then Some (omap head h)
  else None.

(** ** Configuration and the upstream service *)

(** The fields [__init__] reads from the configuration. *)
Record GatewayWebSocketServer : Type := {
  require_device_id : bool;
  allowed_devices : gset string;
  model : string;
  timeout : Z
}.

(** The reply object of [client.chat.completions.create]. *)
Record ChatCompletionMessage : Type := { content : option string }.
Record Choice : Type := { message : option ChatCompletionMessage }.
Record ChatCompletion : Type := { choices : option (list Choice) }.

(** One call of [chat.completions.create(model=.., messages=..)]. *)
Record call : Type := Call { call_model : string; call_messages : value }.

(** What the gateway has done on one connection: the payloads of the
    frames sent, whether [websocket.close()] was called, the upstream
    calls made. *)
Record world : Type := {
  sent : list dict;
  closed : bool;
  calls : list call
}.

Definition world0 : world := {| sent := []; closed := false; calls := [] |}.

(** How a handler ends: it returns, or an exception leaves it; either
    way with what it has done until then. *)
Inductive outcome : Type :=
  | Returned (w : world)
  | Raised (exc : string) (w : world).

Definition world_of (o : outcome) : world :=
  match o with
  | Returned w | Raised _ w => w
  end.

(** One more frame on the wire. *)
Definition deliver (w : world) (payload : dict) : world :=
  {| sent := sent w ++ [payload]; closed := closed w; calls := calls w |}.

(** [await websocket.close()] *)
Definition close (w : world) : world :=
  {| sent := sent w; closed := true; calls := calls w |}.

Definition record_call (w : world) (c : call) : world :=
  {| sent := sent w; closed := closed w; calls := calls w ++ [c] |}.

(** A received WebSocket message: [str] for a text frame, [bytes] for a
    binary one. *)
Inductive frame : Type :=
  | Text (s : string)
  | Binary (b : list byte).

(** The connection as the handler sees it: the headers of the upgrade
    request and the frames the peer sends, the peer staying until the
    last of them is answered. *)
Record websocket : Type := {
  request_headers : Headers;
  incoming : list frame
}.

(** [_send_error]: the payload of an error frame. *)
Definition error_payload (message : string) (request_id : value) : dict :=
  let payload := [("type", VStr "error"); ("message", VStr message)] in
  if truthy request_id then dict_set payload "request_id" request_id
  else payload.

(** Lines 124 to 130 of [_handle_message]: the payload of a reply. *)
Definition response_payload (device_id : option string)
    (response_text : string) (request_id : value) : dict :=
  let payload := [("type", VStr "response");
                  ("device_id", of_opt_str device_id);
                  ("content", VStr response_text)] in
  if truthy request_id then dict_set payload "request_id" request_id
  else payload.

(** ** The listener: [_http_response] *)

(** The reply of [websocket.respond(status, text)]. *)
Record Response : Type := { status_code : Z; body : string }.

(** Modelled from the spec: [headers.get(key, default)] on the header
    container of the websockets library: the default for an absent name,
    the value of a name received once; a name received more than once has
    no single value and the lookup raises, which is [None] here. *)
Definition Headers_get (h : Headers) (key default : string)
  : option string :=
  match h !! lower key with
  | None => Some default
  | Some [val] => Some val
  | Some _ => None
  end.

Definition newline : string := String "010" EmptyString.

(** [_http_response]: [Some None] lets the upgrade go on, [Some (Some r)]
    answers the request with [r]; [None] when the lookup raises. *)
Definition _http_response (request_headers : Headers)
  : option (option Response) :=
  connection ← Headers_get request_headers "connection" "";
  if String.eqb (lower connection) "upgrade" then Some None
  else Some (Some {| status_code := 200;
                     body := "Gateway is running" +:+ newline |}).

(** The values of the header lines whose name, folded, is [k], in
    arrival order. *)
Definition header_values (k : string) (lines : list (string * string))
  : list string :=
  omap (λ kv, if String.eqb (lower kv.1) k then Some kv.2 else None) lines.

(** ** The log filter: [SuppressInvalidHandshakeFilter] *)

(** [needle in haystack] for two [str]. *)
Fixpoint str_contains (needle haystack : string) : bool :=
  String.prefix needle haystack
  || match haystack with
     | EmptyString => false
     | String _ rest => str_contains needle rest
     end.

Module SuppressInvalidHandshakeFilter.

Definition suppress_keywords : list string :=
  [ "opening handshake failed";
    "did not receive a valid HTTP request";
    "connection closed while reading HTTP request";
    "line without CRLF" ].

(** [filter(record)] on [msg = record.getMessage()]: whether the record
    is kept. *)
Definition filter (msg : string) : bool :=
  negb (existsb (λ keyword, str_contains keyword msg) suppress_keywords).

End SuppressInvalidHandshakeFilter.

(** ** The configuration check: [config/settings.py] *)
Module Settings.

Definition default_config_file : string := "config.yaml".

Definition not_found : string :=
  "找不到data/.config.yaml文件，请按教程确认该配置文件是否存在".

(** [check_config_file()].  The module's flag [config_file_valid] is
    passed in and out; [project_dir] is what [get_project_dir()] returns
    and [path_exists] is [os.path.exists] at the time of the call.  The result
    is the flag afterwards and the message of the [FileNotFoundError]
    raised, if any. *)
Definition check_config_file (project_dir : string)
    (path_exists : string → bool) (config_file_valid : bool)
  : bool * option string :=
  if config_file_valid then (config_file_valid, None)
  else
    let custom_config_file :=
      project_dir +:+ "data/." +:+ default_config_file in
    if negb (path_exists custom_config_file)
    then (config_file_valid, Some not_found)
    else (true, None).

(** Calls of [check_config_file] one after the other, each with the file
    system of its time: the flag at the end and the outcome of each
    call. *)
Fixpoint check_each_time (project_dir : string)
    (file_systems : list (string → bool)) (config_file_valid : bool)
  : bool * list (option string) :=
  match file_systems with
  | [] => (config_file_valid, [])
  | path_exists :: later =>
      let '(valid, outcome) :=
        check_config_file project_dir path_exists config_file_valid in
      let '(final, outcomes) := check_each_time project_dir later valid in
      (final, outcome :: outcomes)
  end.

End Settings.

(** ** Concrete data for the closed examples *)
Module Sample.

(** A JSON text written with an apostrophe for each double quote. *)
Fixpoint dq (s : string) : string :=
  match s with
  | EmptyString => EmptyString
  | String c r =>
      String (if Ascii.eqb c "'" then Json.quote else c) (dq r)
  end.

(** [json.loads] of CPython with its defaults. *)
Definition loads : string → loaded := Json.loads Json.cpython.

Definition policy : GatewayWebSocketServer :=
  {| require_device_id := true;
     allowed_devices := {["dev-1"]};
     model := "gpt-4o-mini";
     timeout := 60 |}.

Definition completion (text : string) : ChatCompletion :=
  {| choices := Some [ {| message := Some {| content := Some text |} |} ] |}.

(** An upstream that answers every call with [pong]. *)
Definition pong (history : list call) (model : string) (messages : value)
  : string + ChatCompletion :=
  inr (completion "pong").


Definition dev1 : option string := Some "dev-1".



(** The same handshake under two spellings of the header name. *)
Definition handshake (name : string) : websocket :=
  {| request_headers :=
       Headers_of_lines
         ([("Host", "gateway")] ++ (name, "dev-1") :: [("Origin", "null")]);
     incoming := [Text "hello"] |}.

Definition hi_42 : string := dq "{'text':'hi','request_id':'42'}".
Definition only_request_id : string := dq "{'request_id':'42'}".
Definition messages_abc : string := dq "{'messages':'abc','text':'hi'}".
Definition content_then_prompt : string :=
  dq "{'content':'hi','prompt':'later'}".
Definition shapeless : string := dq "{'messages':[{'x':1}]}".

Definition zero_id : string := dq "{'text':'hi','request_id':0}".



(** [n] opening brackets. *)
Fixpoint nested (n : nat) : string :=
  match n with
  | O => EmptyString
  | S n' => String "[" (nested n')
  end.

(** [n] times the digit 7. *)
Fixpoint digits (n : nat) : string :=
  match n with
  | O => EmptyString
  | S n' => String "7" (digits n')
  end.

(** An upgrade request as a browser sends it, in mixed case. *)
Definition upgrade_lines : list (string * string) :=
  [("Host", "gateway"); ("CONNECTION", "Upgrade");
   ("Upgrade", "websocket"); ("Device-Id", "dev-1")].

(** A file system that holds exactly the file [path]. *)
Definition only_file (path : string) (p : string) : bool :=
  String.eqb p path.

(** A file system without any file. *)
Definition no_file (p : string) : bool := false.

Definition project_dir : string := "/opt/xiaozhi/".

End Sample.

(** [x in s] for an [Optional[str]] and a set of strings. *)
Definition in_set (x : option string) (s : gset string) : bool :=
  match x with
  | Some d => bool_decide (d ∈ s)
  | None => false
  end.

(** ** The gateway *)

Section Gateway.

(** [json.loads] on the text of a frame. *)
Variable json_loads : string → loaded.

(** [client.chat.completions.create(model=.., messages=..)], given the
    calls already made on the connection: the text of the exception it
    raises, or its reply. *)
Variable create : list call → string → value → string + ChatCompletion.

Variable self : GatewayWebSocketServer.

(** The limits of the interpreter when a payload is serialised. *)
Variable dump : Json.limits.

(** The frame with this payload can be put on the wire: [json.dumps]
    returns and the text can be encoded. *)
Definition sendable (payload : dict) : bool :=
  match Json.dumps_error dump payload with
  | Some _ => false
  | None => encodable (VDict payload)
  end.

(** [await websocket.send(json.dumps(payload, ensure_ascii=False))] to
    a peer that is connected: [json.dumps] may raise, and so does [send]
    on a text that holds a lone surrogate; nothing is sent then. *)
Definition send (w : world) (payload : dict) : outcome :=
  match Json.dumps_error dump payload with
  | Some exc => Raised exc w
  | None =>
      if encodable (VDict payload) then Returned (deliver w payload)
      else Raised "UnicodeEncodeError" w
  end.

Definition _send_error (w : world) (message : string) (request_id : value)
  : outcome :=
  send w (error_payload message request_id).

(** [_parse_payload]: the exception that leaves it, or what it
    returns. *)
Definition _parse_payload (message : string) : string + option dict :=
  match json_loads message with
  | JSONDecodeError => inr (Some [("text", VStr message)])
  | Loaded (VDict parsed) => inr (Some parsed)
  | Loaded _ => inr None
  | LoadRaised exc => inl exc
  end.

Definition _call_openai (history : list call) (messages : value)
  : string + string :=
  match create history (model self) messages with
  | inl exc => inl exc
  | inr response =>
      let choice :=
        match choices response with
        | Some (c :: _) => Some c
        | _ => None
        end in
      match choice with
      | Some {| message := Some m |} => inr (default "" (content m))
      | _ => inr ""
      end
  end.

(** [payload.get("text") or payload.get("content") or
    payload.get("prompt")] *)
Definition flat_text (payload : dict) : value :=
  py_or (py_or (dict_get payload "text") (dict_get payload "content"))
        (dict_get payload "prompt").

(** Lines 108 to 114 of [_handle_message]: the value bound to
    [messages] afterwards, or [None] where the handler sends the
    missing-field error and returns. *)
Definition select_messages (payload : dict) : option value :=
  let messages := dict_get payload "messages" in
  if truthy messages then Some messages
  else
    let text := flat_text payload in
    if truthy text
    then Some (VList [VDict [("role", VStr "user"); ("content", text)]])
    else None.

Definition _handle_message (w : world) (message : frame)
    (device_id : option string) : outcome :=
  match message with
  | Binary _ => _send_error w "仅支持文本消息。" VNone
  | Text message =>
      match _parse_payload message with
      | inl exc => Raised exc w
      | inr None => _send_error w "消息格式不合法。" VNone
      | inr (Some payload) =>
          match select_messages payload with
          | None => _send_error w "缺少messages或text字段。" VNone
          | Some messages =>
              let request_id := dict_get payload "request_id" in
              let w' := record_call w (Call (model self) messages) in
              match _call_openai (calls w) messages with
              | inl exc =>
                  _send_error w' ("OpenAI请求失败: " ++ exc) request_id
              | inr response_text =>
                  send w' (response_payload device_id response_text
                                            request_id)
              end
          end
      end
  end.

(** [async for message in websocket: await self._handle_message(..)]:
    an exception that leaves [_handle_message] leaves the loop. *)
Fixpoint receive_loop (w : world) (frames : list frame)
    (device_id : option string) : outcome :=
  match frames with
  | [] => Returned w
  | message :: later =>
      match _handle_message w message device_id with
      | Returned w' => receive_loop w' later device_id
      | Raised exc w' => Raised exc w'
      end
  end.

(** [_handle_connection].  [dict(..)] on line 78 raises for a header
    name received more than once. *)
Definition _handle_connection (ws : websocket) : outcome :=
  match py_dict (request_headers ws) with
  | None => Raised "MultipleValuesError" world0
  | Some headers =>
      let device_id := headers !! "device-id" in
      if require_device_id self && negb (truthy (of_opt_str device_id))
      then
        match _send_error world0 "缺少device-id，拒绝连接。" VNone with
        | Returned w => Returned (close w)
        | Raised exc w => Raised exc w
        end
      else if bool_decide (allowed_devices self ≠ ∅)
              && negb (in_set device_id (allowed_devices self))
      then
        match _send_error world0 "device-id未授权。" VNone with
        | Returned w => Returned (close w)
        | Raised exc w => Raised exc w
        end
      else receive_loop world0 (incoming ws) device_id
  end.

(** *** The notions the statements are about *)

(** No device identifier was supplied: the header is absent or empty. *)
Definition no_device_id (device_id : option string) : Prop :=
  device_id = None ∨ device_id = Some "".

(** The supplied identifier is a member of the allowed devices. *)
Definition is_member (device_id : option string) (s : gset string) : Prop :=
  ∃ d, device_id = Some d ∧ d ∈ s.

(** The connection was turned away: one error frame with [reason], the
    socket closed, no call to the upstream. *)
Definition rejected_with (reason : string) (w : world) : Prop :=
  sent w = [[("type", VStr "error"); ("message", VStr reason)]]
  ∧ closed w = true ∧ calls w = [].

(** The frames sent while [message] was handled from [w] on. *)
Definition emitted (w : world) (message : frame)
    (device_id : option string) : list dict :=
  drop (length (sent w))
       (sent (world_of (_handle_message w message device_id))).

(** The spec's rule 5 in its own words: the first non-empty value among
    [text], [content] and [prompt], in that order. *)
Definition first_non_empty (payload : dict) : option value :=
  List.find truthy [dict_get payload "text"; dict_get payload "content";
                    dict_get payload "prompt"].

(** [{role: "user", content: text}] as a one-turn sequence. *)
Definition single_turn (text : value) : value :=
  VList [VDict [("role", VStr "user"); ("content", text)]].

(** The payload of the frame that answers a call upstream: lines 117 to
    130. *)
Definition reply_payload (history : list call) (messages request_id : value)
    (device_id : option string) : dict :=
  match _call_openai history messages with
  | inl exc => error_payload ("OpenAI请求失败: " ++ exc) request_id
  | inr response_text => response_payload device_id response_text request_id
  end.

(** What [_handle_message] does once [messages] and [request_id] are
    known: lines 117 to 131. *)
Definition dispatch (w : world) (messages request_id : value)
    (device_id : option string) : outcome :=
  let w' := record_call w (Call (model self) messages) in
  match _call_openai (calls w) messages with
  | inl exc => _send_error w' ("OpenAI请求失败: " ++ exc) request_id
  | inr response_text =>
      send w' (response_payload device_id response_text request_id)
  end.

(** The turn sequence a frame is sent upstream with, if it gets that
    far: lines 99 to 114. *)
Definition turns_of (message : frame) : option value :=
  match message with
  | Binary _ => None
  | Text raw =>
      match _parse_payload raw with
      | inr (Some payload) => select_messages payload
      | _ => None
      end
  end.

(** The fields of a frame the gateway sends on a connection whose device
    is [device_id]: an error with its message, or a response with the
    device and the reply text; a [request_id], when there is one, is
    truthy. *)
Definition frame_shape (device_id : option string) (p : dict) : Prop :=
  ((dict_lookup p "type" = Some (VStr "error")
    ∧ ∃ reason, dict_lookup p "message" = Some (VStr reason))
   ∨ (dict_lookup p "type" = Some (VStr "response")
      ∧ dict_lookup p "device_id" = Some (of_opt_str device_id)
      ∧ ∃ text, dict_lookup p "content" = Some (VStr text)))
  ∧ ∀ v, dict_lookup p "request_id" = Some v → truthy v = true.

(** A frame that ends the handler when it is handled from [w] on. *)
Definition fatal (w : world) (message : frame) (device_id : option string)
  : Prop :=
  ∃ exc w', _handle_message w message device_id = Raised exc w'.

(** *** Basic facts *)

Lemma receive_loop_cons w message frames device_id :
  receive_loop w (message :: frames) device_id
  = match _handle_message w message device_id with
    | Returned w' => receive_loop w' frames device_id
    | Raised exc w' => Raised exc w'
    end.
Proof. reflexivity. Qed.

Lemma handle_message_text w raw device_id :
  _handle_message w (Text raw) device_id
  = match _parse_payload raw with
    | inl exc => Raised exc w
    | inr None => _send_error w "消息格式不合法。" VNone
    | inr (Some payload) =>
        match select_messages payload with
        | None => _send_error w "缺少messages或text字段。" VNone
        | Some messages =>
            dispatch w messages (dict_get payload "request_id") device_id
        end
    end.
Proof. reflexivity. Qed.

(** A frame is sent when it can be, and the exception leaves the world
    as it was when it cannot. *)
Lemma send_cases w payload :
  (sendable payload = true ∧ send w payload = Returned (deliver w payload))
  ∨ (sendable payload = false ∧ ∃ exc, send w payload = Raised exc w).
Proof.
  unfold sendable, send.
  destruct (Json.dumps_error dump payload) as [exc|].
  - right. by eauto.
  - destruct (encodable (VDict payload)); [by left | right; by eauto].
Qed.

Lemma send_sendable w payload :
  sendable payload = true → send w payload = Returned (deliver w payload).
Proof.
  intros H. destruct (send_cases w payload) as [[_ E] | [E _]];
    [done | congruence].
Qed.

Lemma world_of_send w payload :
  world_of (send w payload)
  = if sendable payload then deliver w payload else w.
Proof.
  destruct (send_cases w payload) as [[-> ->] | [-> [exc ->]]]; done.
Qed.

Lemma encode_error_str lim room s :
  Json.encode_error lim room (VStr s) = None.
Proof. by destruct room. Qed.

(** The error frames without a [request_id] can always be sent, whatever
    the limits: their two values are strings. *)
Lemma send_error_fixed w reason :
  has_surrogate reason = false →
  _send_error w reason VNone
  = Returned (deliver w [("type", VStr "error"); ("message", VStr reason)]).
Proof.
  intros H. unfold _send_error, error_payload. simpl truthy. cbv iota.
  apply send_sendable. unfold sendable, Json.dumps_error. simpl.
  by rewrite !encode_error_str, H.
Qed.

Lemma dispatch_send w messages request_id device_id :
  dispatch w messages request_id device_id
  = send (record_call w (Call (model self) messages))
         (reply_payload (calls w) messages request_id device_id).
Proof.
  unfold dispatch, reply_payload, _send_error.
  by destruct (_call_openai _ _).
Qed.

(** The three ways a frame is handled: the decoder raises; the frame is
    answered with a protocol error; the upstream is called and the reply
    is sent, if it can be. *)
Lemma handle_message_cases w message device_id :
  (∃ raw exc, message = Text raw ∧ _parse_payload raw = inl exc
     ∧ turns_of message = None
     ∧ _handle_message w message device_id = Raised exc w)
  ∨ (∃ reason, turns_of message = None
       ∧ _handle_message w message device_id
         = Returned (deliver w [("type", VStr "error");
                                ("message", VStr reason)]))
  ∨ (∃ raw payload turns, message = Text raw
       ∧ _parse_payload raw = inr (Some payload)
       ∧ select_messages payload = Some turns
       ∧ turns_of message = Some turns
       ∧ _handle_message w message device_id
         = send (record_call w (Call (model self) turns))
                (reply_payload (calls w) turns
                               (dict_get payload "request_id") device_id)).
Proof.
  destruct message as [raw|b].
  - rewrite handle_message_text. simpl.
    destruct (_parse_payload raw) as [exc|[payload|]] eqn:Hp.
    + left. by exists raw, exc.
    + destruct (select_messages payload) as [turns|] eqn:Hs.
      * right. right. exists raw, payload, turns.
        by rewrite dispatch_send.
      * right. left. eexists. split; [done|].
        by apply send_error_fixed.
    + right. left. eexists. split; [done|]. by apply send_error_fixed.
  - right. left. eexists. split; [done|]. by apply send_error_fixed.
Qed.

(** The gateway never closes the socket while it handles a frame. *)
Lemma handle_message_closed w message device_id :
  closed (world_of (_handle_message w message device_id)) = closed w.
Proof.
  destruct (handle_message_cases w message device_id)
    as [(raw & exc & _ & _ & _ & ->) | [(reason & _ & ->)
        | (raw & payload & turns & _ & _ & _ & _ & ->)]]; [done | done |].
  rewrite world_of_send. by destruct (sendable _).
Qed.

Lemma handle_message_calls w message device_id :
  calls (world_of (_handle_message w message device_id))
  = calls w ++ match turns_of message with
               | Some turns => [Call (model self) turns]
               | None => []
               end.
Proof.
  destruct (handle_message_cases w message device_id)
    as [(raw & exc & _ & _ & -> & ->) | [(reason & -> & ->)
        | (raw & payload & turns & _ & _ & _ & -> & ->)]];
    [by rewrite app_nil_r | by rewrite app_nil_r |].
  rewrite world_of_send. by destruct (sendable _).
Qed.

(** What is sent for a frame comes after what was sent before. *)
Lemma sent_emitted w message device_id :
  sent (world_of (_handle_message w message device_id))
  = sent w ++ emitted w message device_id.
Proof.
  assert (∃ l, sent (world_of (_handle_message w message device_id))
               = sent w ++ l) as [l E].
  { destruct (handle_message_cases w message device_id)
      as [(raw & exc & _ & _ & _ & ->) | [(reason & _ & ->)
          | (raw & payload & turns & _ & _ & _ & _ & ->)]].
    - exists []. by rewrite app_nil_r.
    - by eexists.
    - rewrite world_of_send. destruct (sendable _); [by eexists|].
      exists []. by rewrite app_nil_r. }
  unfold emitted. by rewrite E, drop_app_length.
Qed.

Lemma emitted_spec w message device_id l :
  sent (world_of (_handle_message w message device_id)) = sent w ++ l →
  emitted w message device_id = l.
Proof. intros E. unfold emitted. by rewrite E, drop_app_length. Qed.

(** What is sent for a frame, case by case. *)
Lemma emitted_cases w message device_id :
  (turns_of message = None
   ∧ (emitted w message device_id = []
      ∧ (∃ exc w', _handle_message w message device_id = Raised exc w')
      ∨ ∃ reason, emitted w message device_id
                  = [error_payload reason VNone]))
  ∨ (∃ raw payload turns, message = Text raw
       ∧ _parse_payload raw = inr (Some payload)
       ∧ select_messages payload = Some turns
       ∧ turns_of message = Some turns
       ∧ let p := reply_payload (calls w) turns
                    (dict_get payload "request_id") device_id in
         emitted w message device_id = (if sendable p then [p] else [])
         ∧ (sendable p = true
            ↔ ∃ w', _handle_message w message device_id = Returned w')).
Proof.
  destruct (handle_message_cases w message device_id)
    as [(raw & exc & _ & _ & T & E) | [(reason & T & E)
        | (raw & payload & turns & -> & Hp & Hs & T & E)]].
  - left. split; [done|]. left. split; [|by eauto].
    apply emitted_spec. rewrite E. simpl. by rewrite app_nil_r.
  - left. split; [done|]. right. exists reason.
    apply emitted_spec. by rewrite E.
  - right. exists raw, payload, turns. repeat (split; [done|]). cbv zeta.
    split.
    + apply emitted_spec. rewrite E, world_of_send.
      destruct (sendable _); [done|]. by rewrite app_nil_r.
    + rewrite E.
      destruct (send_cases (record_call w (Call (model self) turns))
                  (reply_payload (calls w) turns
                     (dict_get payload "request_id") device_id))
        as [[-> ->] | [-> [exc ->]]].
      * split; [by eauto | done].
      * split; [done | by intros [w' ?]].
Qed.

Lemma emitted_length w message device_id :
  (length (emitted w message device_id) ≤ 1)%nat
  ∧ ∀ w', _handle_message w message device_id = Returned w' →
          length (emitted w message device_id) = 1%nat.
Proof.
  destruct (emitted_cases w message device_id)
    as [[_ [[E (exc & w1 & R)] | [reason E]]]
        | (raw & payload & turns & _ & _ & _ & _ & E & S)].
  - rewrite E. split; [simpl; lia|]. intros w'. by rewrite R.
  - rewrite E. by split.
  - cbv zeta in E, S. rewrite E. destruct (sendable _) eqn:Hs.
    + by split.
    + split; [simpl; lia|]. intros w' R.
      assert (false = true) by (apply S; by eauto). done.
Qed.

Lemma receive_loop_closed frames : ∀ w device_id,
  closed (world_of (receive_loop w frames device_id)) = closed w.
Proof.
  induction frames as [|message frames IH]; intros w device_id; [done|].
  rewrite receive_loop_cons.
  pose proof (handle_message_closed w message device_id) as C.
  destruct (_handle_message w message device_id) as [w'|exc w'];
    simpl in C; [by rewrite IH | done].
Qed.

(** *** The authentication gate *)

Lemma no_device_id_spec device_id :
  truthy (of_opt_str device_id) = false ↔ no_device_id device_id.
Proof.
  unfold no_device_id. destruct device_id as [d|]; simpl.
  - rewrite negb_false_iff, String.eqb_eq.
    split; [intros ->; by right | intros [?|?]; congruence].
  - split; [by left | done].
Qed.

Lemma in_set_spec device_id s :
  in_set device_id s = true ↔ is_member device_id s.
Proof.
  unfold is_member. destruct device_id as [d|]; simpl.
  - rewrite bool_decide_eq_true.
    split; [by exists d | intros (d' & [= ->] & ?); done].
  - split; [done | intros (d & ? & _); done].
Qed.

(** The handler past line 78: the two tests of the gate on the
    identifier found in the header dict. *)
Lemma handle_connection_gate ws headers :
  py_dict (request_headers ws) = Some headers →
  _handle_connection ws
  = let device_id := headers !! "device-id" in
    if require_device_id self && negb (truthy (of_opt_str device_id))
    then Returned (close (deliver world0
                    [("type", VStr "error");
                     ("message", VStr "缺少device-id，拒绝连接。")]))
    else if bool_decide (allowed_devices self ≠ ∅)
            && negb (in_set device_id (allowed_devices self))
    then Returned (close (deliver world0
                    [("type", VStr "error");
                     ("message", VStr "device-id未授权。")]))
    else receive_loop world0 (incoming ws) device_id.
Proof.
  intros Hdict. unfold _handle_connection. rewrite Hdict. cbv zeta.
  by rewrite !send_error_fixed.
Qed.

Lemma gate_verdict ws (device_id : option string) :
  let missing :=
    require_device_id self = true ∧ no_device_id device_id in
  let unauthorized :=
    allowed_devices self ≠ ∅
    ∧ ¬ is_member device_id (allowed_devices self) in
  ∀ o,
    o = (if require_device_id self && negb (truthy (of_opt_str device_id))
         then Returned (close (deliver world0
                         [("type", VStr "error");
                          ("message", VStr "缺少device-id，拒绝连接。")]))
         else if bool_decide (allowed_devices self ≠ ∅)
                 && negb (in_set device_id (allowed_devices self))
         then Returned (close (deliver world0
                         [("type", VStr "error");
                          ("message", VStr "device-id未授权。")]))
         else receive_loop world0 (incoming ws) device_id) →
    (missing →
       ∃ w, o = Returned w ∧ rejected_with "缺少device-id，拒绝连接。" w)
    ∧ (¬ missing → unauthorized →
       ∃ w, o = Returned w ∧ rejected_with "device-id未授权。" w)
    ∧ (¬ missing → ¬ unauthorized →
       o = receive_loop world0 (incoming ws) device_id
       ∧ closed (world_of o) = false).
Proof.
  cbv zeta. intros o ->.
  pose proof (no_device_id_spec device_id) as N.
  pose proof (in_set_spec device_id (allowed_devices self)) as M.
  destruct (bool_decide (allowed_devices self ≠ ∅)) eqn:E;
    [apply bool_decide_eq_true in E | apply bool_decide_eq_false in E];
    destruct (require_device_id self),
      (truthy (of_opt_str device_id)),
      (in_set device_id (allowed_devices self));
    simpl; (split; [|split]);
    first [ by (intros; eexists; split; [reflexivity|repeat split])
          | by (intros; split; [|rewrite receive_loop_closed])
          | intuition congruence ].
Qed.


(** *** Reply frames and the correlation id *)

Lemma error_payload_request_id message request_id v :
  dict_lookup (error_payload message request_id) "request_id" = Some v →
  v = request_id ∧ truthy request_id = true.
Proof.
  unfold error_payload.
  destruct (truthy request_id); simpl; intros [= <-]; done.
Qed.

Lemma response_payload_request_id device_id text request_id v :
  dict_lookup (response_payload device_id text request_id) "request_id"
  = Some v →
  v = request_id ∧ truthy request_id = true.
Proof.
  unfold response_payload.
  destruct (truthy request_id); simpl; intros [= <-]; done.
Qed.

Lemma reply_payload_request_id history messages request_id device_id :
  dict_lookup (reply_payload history messages request_id device_id)
              "request_id"
  = if truthy request_id then Some request_id else None.
Proof.
  unfold reply_payload, error_payload, response_payload.
  destruct (_call_openai _ _); by destruct (truthy request_id).
Qed.

(** A frame sent for a message carries a [request_id] only when the
    message decoded to an envelope, and then the one found there. *)
Lemma emitted_request_id w message device_id p v :
  p ∈ emitted w message device_id →
  dict_lookup p "request_id" = Some v →
  ∃ raw payload,
    message = Text raw ∧ _parse_payload raw = inr (Some payload)
    ∧ dict_get payload "request_id" = v ∧ truthy v = true.
Proof.
  intros Hin Hv.
  destruct (emitted_cases w message device_id)
    as [[_ [[E _] | [reason E]]]
        | (raw & payload & turns & -> & Hp & _ & _ & E & _)].
  - rewrite E in Hin. by apply not_elem_of_nil in Hin.
  - rewrite E in Hin. apply list_elem_of_singleton in Hin as ->. done.
  - cbv zeta in E. rewrite E in Hin. destruct (sendable _).
    + apply list_elem_of_singleton in Hin as ->.
      rewrite reply_payload_request_id in Hv.
      destruct (truthy (dict_get payload "request_id")) eqn:T; [|done].
      injection Hv as <-. by exists raw, payload.
    + by apply not_elem_of_nil in Hin.
Qed.

(** C2. For every inbound frame that supplies a [request_id], each
    frame sent in answer to it that carries a [request_id] carries the
    supplied value itself. *)
Theorem request_id_echoed_unmodified
    w raw payload request_id device_id p v :
  json_loads raw = Loaded (VDict payload) →
  dict_lookup payload "request_id" = Some request_id →
  p ∈ emitted w (Text raw) device_id →
  dict_lookup p "request_id" = Some v →
  v = request_id.
Proof.
  intros Hj Hid Hin Hv.
  destruct (emitted_request_id _ _ _ _ _ Hin Hv)
    as (raw' & payload' & [= <-] & Hp & Hget & _).
  unfold _parse_payload in Hp. rewrite Hj in Hp.
  injection Hp as <-.
  unfold dict_get in Hget. by rewrite Hid in Hget.
Qed.

(** *** Normalisation *)

Lemma parse_payload_object raw payload :
  json_loads raw = Loaded (VDict payload) →
  _parse_payload raw = inr (Some payload).
Proof. intros H. unfold _parse_payload. by rewrite H. Qed.

Lemma parse_payload_fallback raw :
  json_loads raw = JSONDecodeError →
  _parse_payload raw = inr (Some [("text", VStr raw)]).
Proof. intros H. unfold _parse_payload. by rewrite H. Qed.

(** The chain of [or] on line 110 is the spec's first non-empty field. *)
Lemma flat_text_first_non_empty payload :
  match first_non_empty payload with
  | Some text => flat_text payload = text ∧ truthy text = true
  | None => truthy (flat_text payload) = false
  end.
Proof.
  unfold first_non_empty, flat_text, py_or. simpl.
  destruct (truthy (dict_get payload "text")) eqn:T; simpl;
    [by rewrite T|].
  destruct (truthy (dict_get payload "content")) eqn:C; simpl;
    [by rewrite C|].
  destruct (truthy (dict_get payload "prompt")) eqn:P; simpl; done.
Qed.

Lemma select_messages_flat payload :
  truthy (dict_get payload "messages") = false →
  select_messages payload = single_turn <$> first_non_empty payload.
Proof.
  intros M. unfold select_messages. rewrite M.
  pose proof (flat_text_first_non_empty payload) as F.
  destruct (first_non_empty payload) as [text|]; simpl.
  - destruct F as [-> ->]. done.
  - by rewrite F.
Qed.

(** C5, as amended.  For every JSON object frame whose [messages] field
    is absent or not truthy, the flat message is the first truthy value
    among [text], [content] and [prompt], in that order; it is sent
    upstream as the single turn [{role: "user", content: text}].  When
    none of the three is truthy the frame is answered with the
    missing-messages-or-text error. *)
Theorem flat_message_selection w raw payload device_id :
  json_loads raw = Loaded (VDict payload) →
  truthy (dict_get payload "messages") = false →
  match first_non_empty payload with
  | Some text =>
      select_messages payload = Some (single_turn text)
      ∧ _handle_message w (Text raw) device_id
        = dispatch w (single_turn text) (dict_get payload "request_id")
                   device_id
  | None =>
      select_messages payload = None
      ∧ _handle_message w (Text raw) device_id
        = _send_error w "缺少messages或text字段。" VNone
  end.
Proof.
  intros Hj M.
  rewrite handle_message_text, (parse_payload_object _ _ Hj).
  rewrite (select_messages_flat _ M).
  by destruct (first_non_empty payload).
Qed.

(** C10. For every JSON object frame whose [messages] field is truthy,
    whatever its shape, the frame is not answered with a protocol
    error: the value of [messages] itself is what the upstream service
    is called with. *)
Theorem truthy_messages_not_validated w raw payload device_id :
  json_loads raw = Loaded (VDict payload) →
  truthy (dict_get payload "messages") = true →
  select_messages payload = Some (dict_get payload "messages")
  ∧ _handle_message w (Text raw) device_id
    = dispatch w (dict_get payload "messages")
               (dict_get payload "request_id") device_id
  ∧ calls (world_of (_handle_message w (Text raw) device_id))
    = calls w ++ [Call (model self) (dict_get payload "messages")].
Proof.
  intros Hj M.
  assert (select_messages payload = Some (dict_get payload "messages"))
    as S by (unfold select_messages; by rewrite M).
  split; [done|]. split.
  - by rewrite handle_message_text, (parse_payload_object _ _ Hj), S.
  - rewrite handle_message_calls. simpl.
    by rewrite (parse_payload_object _ _ Hj), S.
Qed.

(** C4, as amended.  For every non-empty text frame on which
    [json.loads] raises [JSONDecodeError], the frame is not turned down:
    the whole text becomes the envelope [{text: raw}], the turn sequence
    is [[{role: "user", content: raw}]], and the reply carries no
    [request_id]. *)
Theorem non_json_text_fallback w raw device_id :
  json_loads raw = JSONDecodeError →
  raw ≠ "" →
  _parse_payload raw = inr (Some [("text", VStr raw)])
  ∧ select_messages [("text", VStr raw)] = Some (single_turn (VStr raw))
  ∧ _handle_message w (Text raw) device_id
    = dispatch w (single_turn (VStr raw)) VNone device_id
  ∧ calls (world_of (_handle_message w (Text raw) device_id))
    = calls w ++ [Call (model self) (single_turn (VStr raw))]
  ∧ ∀ p, p ∈ emitted w (Text raw) device_id →
         dict_lookup p "request_id" = None.
Proof.
  intros Hj Hne.
  assert (select_messages [("text", VStr raw)]
          = Some (single_turn (VStr raw))) as S.
  { unfold select_messages, flat_text, py_or, dict_get. simpl.
    apply String.eqb_neq in Hne. by repeat (rewrite Hne; simpl). }
  pose proof (parse_payload_fallback _ Hj) as Hp.
  split; [done|]. split; [done|]. split; [|split].
  - by rewrite handle_message_text, Hp, S.
  - rewrite handle_message_calls. simpl. by rewrite Hp, S.
  - intros p Hin.
    destruct (dict_lookup p "request_id") as [v|] eqn:Hv; [|done].
    destruct (emitted_request_id _ _ _ _ _ Hin Hv)
      as (raw' & payload' & [= <-] & Hp' & Hget & T).
    rewrite Hp in Hp'. injection Hp' as <-.
    unfold dict_get in Hget. simpl in Hget. subst v. done.
Qed.

(** *** The upstream call *)

(** C6. For every call that the upstream service answers, the reply
    text is the content of the message of the first choice, and it is
    the empty string whenever there are no choices, the first choice
    has no message, or that message has no content. *)
Theorem call_openai_reply_text history messages response :
  create history (model self) messages = inr response →
  (∀ c cs m s,
      choices response = Some (c :: cs) → message c = Some m →
      content m = Some s →
      _call_openai history messages = inr s)
  ∧ (choices response = None ∨ choices response = Some []
     ∨ (∃ c cs, choices response = Some (c :: cs)
          ∧ (message c = None
             ∨ ∃ m, message c = Some m ∧ content m = None)) →
     _call_openai history messages = inr "").
Proof.
  intros Hc. unfold _call_openai. rewrite Hc. split.
  - intros [msg] cs m s -> Hm Hs. simpl in Hm. subst msg.
    by rewrite Hs.
  - intros [-> | [-> | (c & cs & -> & Hm)]]; [done | done |].
    destruct c as [msg]. simpl in Hm.
    destruct Hm as [-> | (m & -> & ->)]; done.
Qed.




(** *** Protocol errors *)

(** C8. For every binary frame, whatever the decoder and the upstream
    service are, the gateway sends exactly one error frame saying that
    only text messages are supported, calls neither of them, leaves the
    socket open and goes on with the frames that follow. *)
Theorem binary_frame_only_text_error w b device_id frames :
  let w1 :=
    deliver w [("type", VStr "error"); ("message", VStr "仅支持文本消息。")] in
  _handle_message w (Binary b) device_id = Returned w1
  ∧ sent w1
    = sent w ++ [[("type", VStr "error");
                  ("message", VStr "仅支持文本消息。")]]
  ∧ calls w1 = calls w
  ∧ closed w1 = closed w
  ∧ receive_loop w (Binary b :: frames) device_id
    = receive_loop w1 frames device_id.
Proof.
  cbv zeta.
  assert (_handle_message w (Binary b) device_id
          = Returned (deliver w [("type", VStr "error");
                                 ("message", VStr "仅支持文本消息。")])) as E.
  { by apply send_error_fixed. }
  repeat (split; [done|]). by rewrite receive_loop_cons, E.
Qed.

(** The three protocol errors are answered the same way: by one error
    frame built without a [request_id], and without a call upstream. *)
Lemma protocol_error_frame w message device_id :
  (∃ b, message = Binary b)
  ∨ (∃ raw, message = Text raw ∧ _parse_payload raw = inr None)
  ∨ (∃ raw payload, message = Text raw
       ∧ _parse_payload raw = inr (Some payload)
       ∧ select_messages payload = None) →
  ∃ reason,
    _handle_message w message device_id
    = Returned (deliver w [("type", VStr "error");
                           ("message", VStr reason)]).
Proof.
  intros [(b & ->) | [(raw & -> & Hp) | (raw & payload & -> & Hp & Hs)]].
  - eexists. by apply send_error_fixed.
  - rewrite handle_message_text, Hp. eexists. by apply send_error_fixed.
  - rewrite handle_message_text, Hp, Hs. eexists.
    by apply send_error_fixed.
Qed.

(** *** The device header *)

Lemma Headers_setitem_lower h name name' val :
  lower name = lower name' →
  Headers_setitem h name val = Headers_setitem h name' val.
Proof. intros E. unfold Headers_setitem. by rewrite E. Qed.

Lemma Headers_fold_lookup lines : ∀ (h : Headers) k,
  fold_left (λ h kv, Headers_setitem h kv.1 kv.2) lines h !! k
  = match header_values k lines with
    | [] => h !! k
    | vs => Some (default [] (h !! k) ++ vs)
    end.
Proof.
  induction lines as [|[name val] lines IH]; intros h k; [done|].
  simpl. rewrite IH. unfold header_values. simpl.
  fold (header_values k lines). unfold Headers_setitem.
  destruct (String.eqb (lower name) k) eqn:E.
  - apply String.eqb_eq in E as <-. rewrite lookup_insert_eq. simpl.
    destruct (header_values (lower name) lines); [done|].
    by rewrite <- app_assoc.
  - apply String.eqb_neq in E. by rewrite lookup_insert_ne.
Qed.

Lemma Headers_of_lines_lookup lines k :
  Headers_of_lines lines !! k
  = match header_values k lines with
    | [] => None
    | vs => Some vs
    end.
Proof.
  unfold Headers_of_lines. rewrite Headers_fold_lookup, lookup_empty.
  by destruct (header_values k lines).
Qed.

(** Past line 78 every name has come once, and the dict holds its
    value. *)
Lemma py_dict_lookup lines headers k :
  py_dict (Headers_of_lines lines) = Some headers →
  headers !! k = head (header_values k lines)
  ∧ (length (header_values k lines) ≤ 1)%nat.
Proof.
  unfold py_dict. case_bool_decide as HF; [|done]. intros [= <-].
  rewrite map_Forall_lookup in HF. split.
  - rewrite lookup_omap, Headers_of_lines_lookup.
    by destruct (header_values k lines).
  - specialize (HF k). rewrite Headers_of_lines_lookup in HF.
    destruct (header_values k lines) as [|v vs]; simpl; [lia|].
    pose proof (HF (v :: vs) eq_refl) as L. simpl in L. lia.
Qed.

Lemma header_values_line k name val before after :
  lower name = k →
  header_values k (before ++ (name, val) :: after)
  = header_values k before ++ val :: header_values k after.
Proof.
  intros E. unfold header_values. rewrite omap_app. simpl.
  apply String.eqb_eq in E. by rewrite E.
Qed.

(** C9. For every handshake, a [device-id] header sent under any
    letter casing is treated as the same header sent in lower case: the
    handler does the same with both connections, and past line 78 the
    value sent under that name is the identifier on which the presence
    and the membership test of the gate decide. *)
Theorem device_id_header_any_case name device before after frames :
  lower name = "device-id" →
  let ws :=
    {| request_headers :=
         Headers_of_lines (before ++ (name, device) :: after);
       incoming := frames |} in
  let ws_lower :=
    {| request_headers :=
         Headers_of_lines (before ++ ("device-id", device) :: after);
       incoming := frames |} in
  let missing := require_device_id self = true ∧ device = "" in
  let unauthorized :=
    allowed_devices self ≠ ∅ ∧ device ∉ allowed_devices self in
  _handle_connection ws = _handle_connection ws_lower
  ∧ ∀ headers,
      py_dict (request_headers ws) = Some headers →
      headers !! "device-id" = Some device
      ∧ (missing →
         ∃ w, _handle_connection ws = Returned w
           ∧ rejected_with "缺少device-id，拒绝连接。" w)
      ∧ (¬ missing → unauthorized →
         ∃ w, _handle_connection ws = Returned w
           ∧ rejected_with "device-id未授权。" w)
      ∧ (¬ missing → ¬ unauthorized →
         _handle_connection ws = receive_loop world0 frames (Some device)).
Proof.
  intros E. cbv zeta. split.
  { unfold _handle_connection, Headers_of_lines. simpl.
    rewrite !fold_left_app. simpl.
    by rewrite (Headers_setitem_lower _ name "device-id" device E). }
  intros headers Hdict. simpl in Hdict.
  assert (headers !! "device-id" = Some device) as Hid.
  { destruct (py_dict_lookup _ _ "device-id" Hdict) as [-> L].
    rewrite (header_values_line "device-id" name device before after E)
      in L |- *.
    rewrite length_app in L. simpl in L.
    destruct (header_values "device-id" before); [done | simpl in L; lia]. }
  split; [exact Hid|].
  pose proof (handle_connection_gate
                {| request_headers :=
                     Headers_of_lines (before ++ (name, device) :: after);
                   incoming := frames |} headers Hdict) as G.
  cbv zeta in G. rewrite Hid in G.
  destruct (gate_verdict
              {| request_headers :=
                   Headers_of_lines (before ++ (name, device) :: after);
                 incoming := frames |} (Some device) _ G)
    as (Miss & Unauth & Pass).
  assert (no_device_id (Some device) ↔ device = "") as N.
  { unfold no_device_id. split; [intros [?|?]; congruence | by right; subst]. }
  assert (is_member (Some device) (allowed_devices self)
          ↔ device ∈ allowed_devices self) as M.
  { unfold is_member. split; [by intros (d & [= <-] & ?) | by exists device]. }
  split; [|split].
  - intros [R D]. apply Miss. split; [done | by apply N].
  - intros NM [A U]. apply Unauth; [|split; [done|]]; intuition.
  - intros NM NU. apply Pass; intuition.
Qed.

(** *** The receive loop as a whole *)

Lemma turns_of_truthy message turns :
  turns_of message = Some turns → truthy turns = true.
Proof.
  destruct message as [raw|b]; [|done]. simpl.
  destruct (_parse_payload raw) as [exc|[payload|]]; [done| |done].
  unfold select_messages.
  destruct (truthy (dict_get payload "messages")) eqn:M.
  - by intros [= <-].
  - destruct (truthy (flat_text payload)); by intros [= <-].
Qed.

(** The loop handles a prefix of the frames: all of them, or those up
    to the one at which an exception leaves [_handle_message]. *)
Lemma receive_loop_prefix frames : ∀ w device_id,
  ∃ handled replies,
    handled `prefix_of` frames
    ∧ sent (world_of (receive_loop w frames device_id)) = sent w ++ replies
    ∧ (length replies ≤ length handled)%nat
    ∧ calls (world_of (receive_loop w frames device_id))
      = calls w ++ map (Call (model self)) (omap turns_of handled)
    ∧ ∀ w', receive_loop w frames device_id = Returned w' →
            handled = frames ∧ length replies = length frames.
Proof.
  induction frames as [|message frames IH]; intros w device_id.
  - exists [], []. by rewrite !app_nil_r.
  - rewrite receive_loop_cons.
    pose proof (sent_emitted w message device_id) as Es.
    pose proof (handle_message_calls w message device_id) as Ec.
    destruct (emitted_length w message device_id) as [L1 L2].
    destruct (_handle_message w message device_id) as [w1|exc w1];
      simpl in Es, Ec.
    + destruct (IH w1 device_id) as (handled & replies & P & E & L & C & R).
      exists (message :: handled), (emitted w message device_id ++ replies).
      split; [by apply prefix_cons|]. split.
      { by rewrite E, Es, <- app_assoc. }
      split.
      { rewrite length_app, (L2 w1 eq_refl). simpl. lia. }
      split.
      { rewrite C, Ec. simpl.
        destruct (turns_of message); simpl; by rewrite <- app_assoc. }
      intros w' Hw'. destruct (R w' Hw') as [-> Hl].
      split; [done|]. rewrite length_app, (L2 w1 eq_refl), Hl. done.
    + exists [message], (emitted w message device_id).
      split; [by apply prefix_cons, prefix_nil|]. split; [done|].
      split; [simpl; lia|]. split; [|done].
      simpl. rewrite Ec. by destruct (turns_of message).
Qed.

(** X1. Whatever frames arrive and whatever the upstream does, the
    receive loop sends at most one frame for each frame received and
    leaves the frames sent before as they are; when the loop comes to
    its end, it has answered every frame with exactly one frame. *)
Theorem one_reply_per_frame frames w device_id :
  ∃ replies,
    sent (world_of (receive_loop w frames device_id)) = sent w ++ replies
    ∧ (length replies ≤ length frames)%nat
    ∧ ∀ w', receive_loop w frames device_id = Returned w' →
            length replies = length frames.
Proof.
  destruct (receive_loop_prefix frames w device_id)
    as (handled & replies & P & E & L & _ & R).
  exists replies. split; [exact E|]. split.
  - pose proof (prefix_length _ _ P). lia.
  - intros w' Hw'. by destruct (R w' Hw').
Qed.


(** X3. The upstream service is never called with an empty or null
    message sequence, nor with a model other than the configured one:
    every call the loop adds has truthy [messages]. *)
Theorem upstream_never_called_empty frames w device_id c :
  c ∈ calls (world_of (receive_loop w frames device_id)) →
  c ∈ calls w
  ∨ (call_model c = model self ∧ truthy (call_messages c) = true).
Proof.
  revert w. induction frames as [|message frames IH]; intros w Hin.
  - by left.
  - rewrite receive_loop_cons in Hin.
    pose proof (handle_message_calls w message device_id) as Ec.
    assert (c ∈ calls (world_of (_handle_message w message device_id)) →
            c ∈ calls w
            ∨ (call_model c = model self
               ∧ truthy (call_messages c) = true)) as One.
    { rewrite Ec. intros Hc.
      apply elem_of_app in Hc as [Hc | Hc]; [by left|].
      destruct (turns_of message) as [turns|] eqn:T.
      - apply list_elem_of_singleton in Hc as ->. right.
        split; [done|]. by apply (turns_of_truthy message).
      - by apply not_elem_of_nil in Hc. }
    destruct (_handle_message w message device_id) as [w1|exc w1];
      simpl in One.
    + destruct (IH _ Hin) as [Hc | Hc]; [by apply One | by right].
    + by apply One.
Qed.

Lemma error_payload_shape device_id reason request_id :
  frame_shape device_id (error_payload reason request_id).
Proof.
  split.
  - left. unfold error_payload.
    destruct (truthy request_id); split; by eauto.
  - intros v Hv. by destruct (error_payload_request_id _ _ _ Hv) as [-> ?].
Qed.

Lemma response_payload_shape device_id text request_id :
  frame_shape device_id (response_payload device_id text request_id).
Proof.
  split.
  - right. unfold response_payload.
    destruct (truthy request_id); repeat split; by eauto.
  - intros v Hv.
    by destruct (response_payload_request_id _ _ _ _ Hv) as [-> ?].
Qed.

Lemma reply_payload_shape history messages request_id device_id :
  frame_shape device_id
    (reply_payload history messages request_id device_id).
Proof.
  unfold reply_payload. destruct (_call_openai _ _).
  - apply error_payload_shape.
  - apply response_payload_shape.
Qed.

Lemma emitted_shape w message device_id p :
  p ∈ emitted w message device_id → frame_shape device_id p.
Proof.
  intros Hin.
  destruct (emitted_cases w message device_id)
    as [[_ [[E _] | [reason E]]]
        | (raw & payload & turns & _ & _ & _ & _ & E & _)].
  - rewrite E in Hin. by apply not_elem_of_nil in Hin.
  - rewrite E in Hin. apply list_elem_of_singleton in Hin as ->.
    apply error_payload_shape.
  - cbv zeta in E. rewrite E in Hin. destruct (sendable _).
    + apply list_elem_of_singleton in Hin as ->.
      apply reply_payload_shape.
    + by apply not_elem_of_nil in Hin.
Qed.

(** X4. Every frame the receive loop sends is an error frame with a
    message or a response frame with the reply text and the device id of
    this connection's handshake, and it carries a [request_id] only when
    that value is truthy. *)
Theorem sent_frames_well_formed frames w device_id p :
  p ∈ sent (world_of (receive_loop w frames device_id)) →
  p ∈ sent w ∨ frame_shape device_id p.
Proof.
  revert w. induction frames as [|message frames IH]; intros w Hin.
  - by left.
  - rewrite receive_loop_cons in Hin.
    assert (p ∈ sent (world_of (_handle_message w message device_id)) →
            p ∈ sent w ∨ frame_shape device_id p) as One.
    { rewrite sent_emitted. intros Hp.
      apply elem_of_app in Hp as [Hp | Hp]; [by left|].
      right. by apply (emitted_shape w message). }
    destruct (_handle_message w message device_id) as [w1|exc w1];
      simpl in One.
    + destruct (IH _ Hin) as [Hp | Hp]; [by apply One | by right].
    + by apply One.
Qed.

(** X5. For a frame that passes validation, the reply the handler
    builds (response or upstream error) carries the envelope's
    [request_id] exactly when that value is truthy: a [request_id] of 0,
    false, null or an empty string, list or object is left out.  That
    reply is the one frame sent for the message when it can be put on
    the wire; when it cannot, nothing is sent and an exception leaves the
    handler. *)
Theorem request_id_echoed_by_truth w raw payload turns device_id :
  _parse_payload raw = inr (Some payload) →
  select_messages payload = Some turns →
  let p := reply_payload (calls w) turns (dict_get payload "request_id")
                         device_id in
  dict_lookup p "request_id"
  = (if truthy (dict_get payload "request_id")
     then Some (dict_get payload "request_id")
     else None)
  ∧ (sendable p = true →
     emitted w (Text raw) device_id = [p]
     ∧ ∃ w', _handle_message w (Text raw) device_id = Returned w')
  ∧ (sendable p = false →
     emitted w (Text raw) device_id = []
     ∧ ∃ exc w', _handle_message w (Text raw) device_id = Raised exc w').
Proof.
  intros Hp Hs. cbv zeta.
  split; [apply reply_payload_request_id|].
  assert (_handle_message w (Text raw) device_id
          = send (record_call w (Call (model self) turns))
                 (reply_payload (calls w) turns
                    (dict_get payload "request_id") device_id)) as E.
  { by rewrite handle_message_text, Hp, Hs, dispatch_send. }
  destruct (send_cases (record_call w (Call (model self) turns))
              (reply_payload (calls w) turns
                 (dict_get payload "request_id") device_id))
    as [[S R] | [S [exc R]]]; rewrite R in E; rewrite S.
  - split; [|done]. intros _. split; [|by eauto].
    apply emitted_spec. by rewrite E.
  - split; [done|]. intros _. split; [|by eauto].
    apply emitted_spec. rewrite E. simpl. by rewrite app_nil_r.
Qed.

Lemma error_payload_type reason request_id :
  dict_lookup (error_payload reason request_id) "type"
  = Some (VStr "error").
Proof. unfold error_payload. by destruct (truthy request_id). Qed.

Lemma response_payload_type device_id text request_id :
  dict_lookup (response_payload device_id text request_id) "type"
  = Some (VStr "response").
Proof. unfold response_payload. by destruct (truthy request_id). Qed.

(** X6. At most one frame answers a message, and that frame is a
    response frame exactly when the message passes validation and the
    upstream call returns; every other frame sent is an error frame. *)
Theorem response_iff_upstream_answers w message device_id p :
  p ∈ emitted w message device_id →
  emitted w message device_id = [p]
  ∧ (dict_lookup p "type" = Some (VStr "response")
     ↔ ∃ turns text,
         turns_of message = Some turns
         ∧ _call_openai (calls w) turns = inr text)
  ∧ (dict_lookup p "type" = Some (VStr "error")
     ∨ dict_lookup p "type" = Some (VStr "response")).
Proof.
  intros Hin.
  destruct (emitted_cases w message device_id)
    as [[T [[E _] | [reason E]]]
        | (raw & payload & turns & _ & _ & _ & T & E & _)].
  - rewrite E in Hin. by apply not_elem_of_nil in Hin.
  - rewrite E in Hin |- *. apply list_elem_of_singleton in Hin as ->.
    split; [done|]. rewrite error_payload_type. split; [|by left].
    split; [done|]. intros (t & x & Ht & _). congruence.
  - cbv zeta in E. rewrite E in Hin |- *. destruct (sendable _);
      [|by apply not_elem_of_nil in Hin].
    apply list_elem_of_singleton in Hin as ->. split; [done|].
    unfold reply_payload.
    destruct (_call_openai (calls w) turns) as [exc|text] eqn:Hc.
    + rewrite error_payload_type. split; [|by left].
      split; [done|]. intros (t & x & Ht & Hx). congruence.
    + rewrite response_payload_type. split; [|by right].
      split; [|done]. intros _. by exists turns, text.
Qed.






End Gateway.

(** ** The theorems at concrete inputs *)

Import Sample.



(** The reply to [{"text":"hi","request_id":"42"}] carries ["42"]. *)
Lemma request_id_echoed_unmodified_witness :
  loads hi_42
  = Loaded (VDict [("text", VStr "hi"); ("request_id", VStr "42")])
  ∧ dict_lookup [("text", VStr "hi"); ("request_id", VStr "42")]
                "request_id" = Some (VStr "42")
  ∧ response_payload dev1 "pong" (VStr "42")
    ∈ emitted loads pong policy Json.cpython world0 (Text hi_42) dev1
  ∧ dict_lookup (response_payload dev1 "pong" (VStr "42")) "request_id"
    = Some (VStr "42")
  ∧ VStr "42" = VStr "42".
Proof.
  assert (loads hi_42
          = Loaded (VDict [("text", VStr "hi"); ("request_id", VStr "42")]))
    as H1 by (vm_compute; reflexivity).
  assert (emitted loads pong policy Json.cpython world0 (Text hi_42) dev1
          = [response_payload dev1 "pong" (VStr "42")])
    as H3 by (vm_compute; reflexivity).
  assert (response_payload dev1 "pong" (VStr "42")
          ∈ emitted loads pong policy Json.cpython world0 (Text hi_42) dev1)
    as H3'.
  { rewrite H3. by apply list_elem_of_singleton. }
  split; [exact H1|]. split; [reflexivity|]. split; [exact H3'|].
  split; [reflexivity|].
  exact (request_id_echoed_unmodified loads pong policy Json.cpython world0
           hi_42 _ (VStr "42") dev1 _ (VStr "42") H1 eq_refl H3' eq_refl).
Defined.

(** The text frame [hello] is sent upstream as one user turn. *)
Lemma non_json_text_fallback_witness :
  loads "hello" = JSONDecodeError
  ∧ "hello" ≠ ""
  ∧ _parse_payload loads "hello" = inr (Some [("text", VStr "hello")])
  ∧ select_messages [("text", VStr "hello")]
    = Some (VList [VDict [("role", VStr "user");
                          ("content", VStr "hello")]])
  ∧ _handle_message loads pong policy Json.cpython world0 (Text "hello")
                    dev1
    = dispatch pong policy Json.cpython world0 (single_turn (VStr "hello"))
               VNone dev1
  ∧ calls (world_of (_handle_message loads pong policy Json.cpython world0
                                     (Text "hello") dev1))
    = calls world0 ++ [Call (model policy) (single_turn (VStr "hello"))]
  ∧ ∀ p, p ∈ emitted loads pong policy Json.cpython world0 (Text "hello")
                     dev1 →
         dict_lookup p "request_id" = None.
Proof.
  assert (loads "hello" = JSONDecodeError) as H1 by (vm_compute; reflexivity).
  assert ("hello" ≠ "") as H2 by discriminate.
  split; [exact H1|]. split; [exact H2|].
  exact (non_json_text_fallback loads pong policy Json.cpython world0
           "hello" dev1 H1 H2).
Defined.

(** C4, the claim as stated, fails on the empty text frame: it is not
    valid JSON, and it is answered with the missing-field error, without
    any turn sequence or upstream call. *)
Lemma empty_text_frame_is_turned_down :
  loads "" = JSONDecodeError
  ∧ _parse_payload loads "" = inr (Some [("text", VStr "")])
  ∧ select_messages [("text", VStr "")] = None
  ∧ _handle_message loads pong policy Json.cpython world0 (Text "") dev1
    = Returned {| sent := [[("type", VStr "error");
                            ("message", VStr "缺少messages或text字段。")]];
                  closed := false;
                  calls := [] |}.
Proof. repeat split; vm_compute; reflexivity. Qed.

(** Two more texts that are not valid JSON and get no fallback: on 2000
    opening brackets the decoder raises [RecursionError], on 5000 digits
    followed by a letter it raises [ValueError]; neither is caught on
    line 146, nothing is sent, and the frame after it is not handled. *)
Lemma undecodable_text_ends_the_handler :
  loads (nested 2000) = LoadRaised "RecursionError"
  ∧ loads (digits 5000 +:+ "x") = LoadRaised "ValueError"
  ∧ receive_loop loads pong policy Json.cpython world0
                 [Text (nested 2000); Text "hello"] dev1
    = Raised "RecursionError" world0
  ∧ receive_loop loads pong policy Json.cpython world0
                 [Text (digits 5000 +:+ "x"); Text "hello"] dev1
    = Raised "ValueError" world0.
Proof. repeat split; vm_compute; reflexivity. Qed.

(** With [content] and [prompt] but no [text], [content] is chosen. *)
Lemma flat_message_selection_witness :
  loads content_then_prompt
  = Loaded (VDict [("content", VStr "hi"); ("prompt", VStr "later")])
  ∧ truthy (dict_get [("content", VStr "hi"); ("prompt", VStr "later")]
                     "messages") = false
  ∧ select_messages [("content", VStr "hi"); ("prompt", VStr "later")]
    = Some (single_turn (VStr "hi"))
  ∧ _handle_message loads pong policy Json.cpython world0
                    (Text content_then_prompt) dev1
    = dispatch pong policy Json.cpython world0 (single_turn (VStr "hi"))
               VNone dev1.
Proof.
  assert (loads content_then_prompt
          = Loaded (VDict [("content", VStr "hi");
                           ("prompt", VStr "later")]))
    as H1 by (vm_compute; reflexivity).
  split; [exact H1|]. split; [reflexivity|].
  exact (flat_message_selection loads pong policy Json.cpython world0
           content_then_prompt _ dev1 H1 eq_refl).
Defined.

(** C5, the claim as stated, fails on a frame whose [messages] is a
    non-empty string: there is no non-empty messages list, yet the flat
    [text] is not used; the string itself goes upstream. *)
Lemma non_list_messages_hide_flat_text :
  loads messages_abc
  = Loaded (VDict [("messages", VStr "abc"); ("text", VStr "hi")])
  ∧ first_non_empty [("messages", VStr "abc"); ("text", VStr "hi")]
    = Some (VStr "hi")
  ∧ select_messages [("messages", VStr "abc"); ("text", VStr "hi")]
    = Some (VStr "abc")
  ∧ calls (world_of (_handle_message loads pong policy Json.cpython world0
                                     (Text messages_abc) dev1))
    = [Call "gpt-4o-mini" (VStr "abc")].
Proof. repeat split; vm_compute; reflexivity. Qed.

(** C3. The code at the failing input, whatever the limits of the
    interpreter: the frame [{"request_id":"42"}] supplies a [request_id]
    and no content, and the error frame that answers it carries no
    [request_id]. *)
Theorem missing_content_error_drops_request_id
    lim create self dump w device_id :
  Json.loads lim only_request_id
  = Loaded (VDict [("request_id", VStr "42")])
  ∧ _handle_message (Json.loads lim) create self dump w
                    (Text only_request_id) device_id
    = Returned (deliver w [("type", VStr "error");
                           ("message", VStr "缺少messages或text字段。")])
  ∧ dict_lookup [("type", VStr "error");
                 ("message", VStr "缺少messages或text字段。")]
                "request_id" = None.
Proof.
  assert (Json.loads lim only_request_id
          = Loaded (VDict [("request_id", VStr "42")]))
    as H1 by (vm_compute; reflexivity).
  split; [exact H1|]. split; [|reflexivity].
  rewrite handle_message_text, (parse_payload_object _ _ _ H1).
  change (select_messages [("request_id", VStr "42")]) with (@None value).
  by apply send_error_fixed.
Qed.

(** The first choice's content is the reply text. *)
Lemma call_openai_reply_text_witness :
  pong [] (model policy) (single_turn (VStr "hi")) = inr (completion "pong")
  ∧ _call_openai pong policy [] (single_turn (VStr "hi")) = inr "pong".
Proof.
  split; [reflexivity|].
  destruct (call_openai_reply_text pong policy [] (single_turn (VStr "hi"))
              (completion "pong") eq_refl) as [First _].
  exact (First _ [] _ "pong" eq_refl eq_refl eq_refl).
Defined.



(** [Device-Id] is read as [device-id]; the device is let through. *)
Lemma device_id_header_any_case_witness :
  lower "Device-Id" = "device-id"
  ∧ _handle_connection loads pong policy Json.cpython
                       (handshake "Device-Id")
    = _handle_connection loads pong policy Json.cpython
                         (handshake "device-id")
  ∧ py_dict (request_headers (handshake "Device-Id"))
    = Some (omap head (request_headers (handshake "Device-Id")))
  ∧ omap head (request_headers (handshake "Device-Id")) !! "device-id"
    = Some "dev-1"
  ∧ _handle_connection loads pong policy Json.cpython
                       (handshake "Device-Id")
    = receive_loop loads pong policy Json.cpython world0 [Text "hello"]
                   (Some "dev-1").
Proof.
  destruct (device_id_header_any_case loads pong policy Json.cpython
              "Device-Id" "dev-1" [("Host", "gateway")]
              [("Origin", "null")] [Text "hello"] eq_refl)
    as [Same Read].
  assert (py_dict (request_headers (handshake "Device-Id"))
          = Some (omap head (request_headers (handshake "Device-Id"))))
    as Hd by (vm_compute; reflexivity).
  destruct (Read _ Hd) as (Hid & _ & _ & Pass).
  split; [reflexivity|]. split; [exact Same|]. split; [exact Hd|].
  split; [exact Hid|]. apply Pass.
  - intros [_ ?]; discriminate.
  - intros [_ Hout]. contradict Hout.
    change ("dev-1" ∈ ({["dev-1"]} : gset string)).
    by apply elem_of_singleton.
Defined.

(** A [messages] list whose item has neither role nor content goes
    upstream as it is. *)
Lemma truthy_messages_not_validated_witness :
  loads shapeless
  = Loaded (VDict [("messages", VList [VDict [("x", VInt 1)]])])
  ∧ truthy (dict_get [("messages", VList [VDict [("x", VInt 1)]])]
                     "messages") = true
  ∧ calls (world_of (_handle_message loads pong policy Json.cpython world0
                                     (Text shapeless) dev1))
    = [Call "gpt-4o-mini" (VList [VDict [("x", VInt 1)]])].
Proof.
  assert (loads shapeless
          = Loaded (VDict [("messages", VList [VDict [("x", VInt 1)]])]))
    as H1 by (vm_compute; reflexivity).
  split; [exact H1|]. split; [reflexivity|].
  destruct (truthy_messages_not_validated loads pong policy Json.cpython
              world0 shapeless _ dev1 H1 eq_refl) as (_ & _ & Hcalls).
  exact Hcalls.
Defined.

(** ** The handshake on the wire *)

(** X9. Whether a request is let through to the WebSocket upgrade
    depends only on its Connection header lines, whatever the casing of
    the header name: with none, the request gets the 200 reply
    [Gateway is running]; with exactly one, it is let through when the
    value, lower-cased, is [upgrade] and gets the 200 reply otherwise (a
    value that lists [upgrade] among other options is not an upgrade);
    with several, the lookup raises. *)
Theorem http_response_by_connection_lines lines :
  _http_response (Headers_of_lines lines)
  = match header_values "connection" lines with
    | [] =>
        Some (Some {| status_code := 200;
                      body := "Gateway is running" +:+ newline |})
    | [val] =>
        if String.eqb (lower val) "upgrade" then Some None
        else Some (Some {| status_code := 200;
                           body := "Gateway is running" +:+ newline |})
    | _ :: _ :: _ => None
    end.
Proof.
  unfold _http_response, Headers_get.
  change (lower "connection") with "connection".
  rewrite Headers_of_lines_lookup.
  by destruct (header_values "connection" lines) as [|val [|val' vals]].
Qed.

(** X10. When the handshake gets past line 78, no header name was
    received twice, and the device identifier the gate reads is the value
    of the request's [device-id] line, whatever the casing of its name,
    or nothing when there is no such line. *)
Theorem device_id_read_from_lines lines headers :
  py_dict (Headers_of_lines lines) = Some headers →
  headers !! "device-id" = head (header_values "device-id" lines)
  ∧ ∀ k, (length (header_values k lines) ≤ 1)%nat.
Proof.
  unfold py_dict. case_bool_decide as HF; [|done]. intros [= <-].
  rewrite map_Forall_lookup in HF. split.
  - rewrite lookup_omap, Headers_of_lines_lookup.
    by destruct (header_values "device-id" lines).
  - intros k. specialize (HF k). rewrite Headers_of_lines_lookup in HF.
    destruct (header_values k lines) as [|v vs]; simpl; [lia|].
    pose proof (HF (v :: vs) eq_refl) as L. simpl in L. lia.
Qed.

(** ** The log filter *)

Lemma str_app_nil (b : string) : EmptyString +:+ b = b.
Proof. reflexivity. Qed.

Lemma str_app_cons x (a b : string) : String x a +:+ b = String x (a +:+ b).
Proof. reflexivity. Qed.

Lemma str_app_assoc (a b c : string) : (a +:+ b) +:+ c = a +:+ (b +:+ c).
Proof.
  induction a as [|x a IH]; [done|].
  by rewrite !str_app_cons, IH.
Qed.

Lemma str_app_length (a b : string) :
  String.length (a +:+ b) = String.length a + String.length b.
Proof.
  induction a as [|x a IH]; [done|].
  rewrite str_app_cons. simpl. by rewrite IH.
Qed.

Lemma str_prefix_spec p : ∀ s,
  String.prefix p s = true ↔ ∃ post, s = p +:+ post.
Proof.
  induction p as [|a p IH]; intros s.
  - destruct s; split; eauto.
  - destruct s as [|b s]; simpl.
    + split; [done | by intros [post ?]].
    + destruct (ascii_dec a b) as [->|Hne].
      * rewrite IH. split; intros [post E]; exists post.
        -- by rewrite str_app_cons, E.
        -- rewrite str_app_cons in E. congruence.
      * split; [done|]. intros [post E].
        rewrite str_app_cons in E. congruence.
Qed.

(** [str_contains] is Python's substring test. *)
Lemma str_contains_spec needle : ∀ haystack,
  str_contains needle haystack = true
  ↔ ∃ pre post, haystack = pre +:+ needle +:+ post.
Proof.
  induction haystack as [|c rest IH].
  - change (str_contains needle EmptyString)
      with (String.prefix needle EmptyString || false).
    rewrite orb_false_r, str_prefix_spec. split.
    + intros [post E]. by exists EmptyString, post.
    + intros ([|x pre] & post & E); [by exists post|].
      by rewrite str_app_cons in E.
  - change (str_contains needle (String c rest))
      with (String.prefix needle (String c rest)
            || str_contains needle rest).
    rewrite orb_true_iff, str_prefix_spec, IH. split.
    + intros [[post E] | (pre & post & E)].
      * by exists EmptyString, post.
      * exists (String c pre), post. by rewrite str_app_cons, E.
    + intros ([|x pre] & post & E).
      * left. by exists post.
      * right. rewrite str_app_cons in E. injection E as _ E.
        by exists pre, post.
Qed.

(** X11. A log record is dropped exactly when its message contains one
    of the four handshake-noise keywords as a contiguous, case-sensitive
    substring; every other record is kept. *)
Theorem handshake_noise_is_what_is_dropped msg :
  SuppressInvalidHandshakeFilter.filter msg = false
  ↔ ∃ keyword pre post,
      keyword ∈ SuppressInvalidHandshakeFilter.suppress_keywords
      ∧ msg = pre +:+ keyword +:+ post.
Proof.
  unfold SuppressInvalidHandshakeFilter.filter.
  rewrite negb_false_iff, existsb_exists. split.
  - intros (keyword & Hin & Hc).
    apply str_contains_spec in Hc as (pre & post & E).
    exists keyword, pre, post. by rewrite list_elem_of_In.
  - intros (keyword & pre & post & Hin & E).
    exists keyword. rewrite <- list_elem_of_In. split; [done|].
    apply str_contains_spec. by exists pre, post.
Qed.

Lemma filter_dropped_spec msg :
  SuppressInvalidHandshakeFilter.filter msg = false
  ↔ ∃ keyword,
      keyword ∈ SuppressInvalidHandshakeFilter.suppress_keywords
      ∧ str_contains keyword msg = true.
Proof.
  unfold SuppressInvalidHandshakeFilter.filter.
  rewrite negb_false_iff, existsb_exists.
  by setoid_rewrite list_elem_of_In.
Qed.

(** X12. A message that is dropped stays dropped inside any longer
    message: text before or after it (a logger prefix, a traceback) does
    not bring the record back. *)
Theorem dropped_in_any_context msg pre post :
  SuppressInvalidHandshakeFilter.filter msg = false →
  SuppressInvalidHandshakeFilter.filter (pre +:+ msg +:+ post) = false.
Proof.
  rewrite !filter_dropped_spec. intros (keyword & Hin & Hc).
  exists keyword. split; [done|].
  apply str_contains_spec in Hc as (a & b & ->).
  apply str_contains_spec. exists (pre +:+ a), (b +:+ post).
  by rewrite !str_app_assoc.
Qed.

(** X13. A message shorter than the shortest keyword (17 characters),
    the empty message among them, is never dropped. *)
Theorem short_messages_are_kept msg :
  String.length msg < 17 →
  SuppressInvalidHandshakeFilter.filter msg = true.
Proof.
  intros Hlen.
  destruct (SuppressInvalidHandshakeFilter.filter msg) eqn:F; [done|].
  apply filter_dropped_spec in F as (keyword & Hin & Hc).
  apply str_contains_spec in Hc as (pre & post & ->).
  rewrite !str_app_length in Hlen.
  assert (17 ≤ String.length keyword)%nat as Hk.
  { unfold SuppressInvalidHandshakeFilter.suppress_keywords in Hin.
    repeat (apply elem_of_cons in Hin as [-> | Hin]; [simpl; lia|]).
    by apply not_elem_of_nil in Hin. }
  lia.
Qed.

(** ** The configuration check *)

Lemma check_config_file_unset project_dir path_exists :
  Settings.check_config_file project_dir path_exists false
  = if path_exists (project_dir +:+ "data/.config.yaml")
    then (true, None)
    else (false, Some Settings.not_found).
Proof.
  unfold Settings.check_config_file.
  change (project_dir +:+ "data/." +:+ Settings.default_config_file)
    with (project_dir +:+ "data/.config.yaml").
  by destruct (path_exists _).
Qed.

Lemma check_each_time_cons project_dir path_exists later valid :
  Settings.check_each_time project_dir (path_exists :: later) valid
  = let '(valid', outcome) :=
      Settings.check_config_file project_dir path_exists valid in
    let '(final, outcomes) :=
      Settings.check_each_time project_dir later valid' in
    (final, outcome :: outcomes).
Proof. reflexivity. Qed.

Lemma check_each_time_valid project_dir file_systems :
  Settings.check_each_time project_dir file_systems true
  = (true, replicate (length file_systems) None).
Proof.
  induction file_systems as [|fs later IH]; [done|].
  simpl. by rewrite IH.
Qed.

(** X14. The configuration file is looked for until it is found once:
    after a call of [check_config_file] that did not raise, no later call
    raises, whatever the file system holds by then. *)
Theorem config_check_passes_once_and_for_all
    project_dir path_exists config_file_valid later :
  (Settings.check_config_file project_dir path_exists
     config_file_valid).2 = None →
  Settings.check_each_time project_dir later
    (Settings.check_config_file project_dir path_exists
       config_file_valid).1
  = (true, replicate (length later) None).
Proof.
  unfold Settings.check_config_file.
  destruct config_file_valid; simpl.
  - intros _. apply check_each_time_valid.
  - destruct (path_exists _); simpl; [|done].
    intros _. apply check_each_time_valid.
Qed.

(** X15. Starting with the flag unset, the calls of [check_config_file]
    raise [FileNotFoundError] as long as [data/.config.yaml] is missing
    under the project directory, and from the first call that finds it on
    none raises: the failures are exactly the calls before that one. *)
Theorem config_failures_precede_first_success project_dir file_systems :
  ∃ missing found,
    file_systems = missing ++ found
    ∧ Forall (λ path_exists : string → bool,
                path_exists (project_dir +:+ "data/.config.yaml") = false)
             missing
    ∧ match found with
      | [] => True
      | path_exists :: _ =>
          path_exists (project_dir +:+ "data/.config.yaml") = true
      end
    ∧ Settings.check_each_time project_dir file_systems false
      = (bool_decide (found ≠ []),
         replicate (length missing) (Some Settings.not_found)
         ++ replicate (length found) None).
Proof.
  induction file_systems as [|fs later IH].
  - exists [], []. by repeat split.
  - destruct (fs (project_dir +:+ "data/.config.yaml")) eqn:E.
    + exists [], (fs :: later). repeat split; [done..|].
      rewrite check_each_time_cons, check_config_file_unset, E.
      by rewrite check_each_time_valid.
    + destruct IH as (missing & found & -> & HF & Hfound & Hrun).
      exists (fs :: missing), found. repeat split; [by constructor|done|].
      simpl length.
      rewrite check_each_time_cons, check_config_file_unset, E.
      by rewrite Hrun.
Qed.

(** ** The further properties at concrete inputs *)

(** The one call made for the frame [hello]. *)
Lemma upstream_never_called_empty_witness :
  Call "gpt-4o-mini" (single_turn (VStr "hello"))
  ∈ calls (world_of (receive_loop loads pong policy Json.cpython world0
                                  [Text "hello"] dev1))
  ∧ (Call "gpt-4o-mini" (single_turn (VStr "hello")) ∈ calls world0
     ∨ (call_model (Call "gpt-4o-mini" (single_turn (VStr "hello")))
        = model policy
        ∧ truthy (call_messages
                    (Call "gpt-4o-mini" (single_turn (VStr "hello"))))
          = true)).
Proof.
  assert (Call "gpt-4o-mini" (single_turn (VStr "hello"))
          ∈ calls (world_of (receive_loop loads pong policy Json.cpython
                                          world0 [Text "hello"] dev1)))
    as Hin.
  { replace (calls (world_of (receive_loop loads pong policy Json.cpython
                                           world0 [Text "hello"] dev1)))
      with [Call "gpt-4o-mini" (single_turn (VStr "hello"))]
      by (vm_compute; reflexivity).
    by apply list_elem_of_singleton. }
  split; [exact Hin|].
  exact (upstream_never_called_empty loads pong policy Json.cpython
           [Text "hello"] world0 dev1 _ Hin).
Defined.

(** The response frame sent for the frame [hello]. *)
Lemma sent_frames_well_formed_witness :
  response_payload dev1 "pong" VNone
  ∈ sent (world_of (receive_loop loads pong policy Json.cpython world0
                                 [Text "hello"] dev1))
  ∧ (response_payload dev1 "pong" VNone ∈ sent world0
     ∨ frame_shape dev1 (response_payload dev1 "pong" VNone)).
Proof.
  assert (response_payload dev1 "pong" VNone
          ∈ sent (world_of (receive_loop loads pong policy Json.cpython
                                         world0 [Text "hello"] dev1)))
    as Hin.
  { replace (sent (world_of (receive_loop loads pong policy Json.cpython
                                          world0 [Text "hello"] dev1)))
      with [response_payload dev1 "pong" VNone]
      by (vm_compute; reflexivity).
    by apply list_elem_of_singleton. }
  split; [exact Hin|].
  exact (sent_frames_well_formed loads pong policy Json.cpython
           [Text "hello"] world0 dev1 _ Hin).
Defined.

(** A [request_id] of 0 is not echoed. *)
Lemma request_id_echoed_by_truth_witness :
  _parse_payload loads zero_id
  = inr (Some [("text", VStr "hi"); ("request_id", VInt 0)])
  ∧ select_messages [("text", VStr "hi"); ("request_id", VInt 0)]
    = Some (single_turn (VStr "hi"))
  ∧ dict_lookup (response_payload dev1 "pong" (VInt 0)) "request_id" = None
  ∧ emitted loads pong policy Json.cpython world0 (Text zero_id) dev1
    = [response_payload dev1 "pong" (VInt 0)].
Proof.
  assert (_parse_payload loads zero_id
          = inr (Some [("text", VStr "hi"); ("request_id", VInt 0)]))
    as H1 by (vm_compute; reflexivity).
  split; [exact H1|]. split; [reflexivity|].
  destruct (request_id_echoed_by_truth loads pong policy Json.cpython
              world0 zero_id _ _ dev1 H1 eq_refl) as (Hid & Sent & _).
  split; [exact Hid|].
  destruct (Sent eq_refl) as [Hem _]. exact Hem.
Defined.

(** The frame sent for [hello] is a response: the upstream answered. *)
Lemma response_iff_upstream_answers_witness :
  response_payload dev1 "pong" VNone
  ∈ emitted loads pong policy Json.cpython world0 (Text "hello") dev1
  ∧ emitted loads pong policy Json.cpython world0 (Text "hello") dev1
    = [response_payload dev1 "pong" VNone]
  ∧ dict_lookup (response_payload dev1 "pong" VNone) "type"
    = Some (VStr "response")
  ∧ ∃ turns text,
      turns_of loads (Text "hello") = Some turns
      ∧ _call_openai pong policy (calls world0) turns = inr text.
Proof.
  assert (response_payload dev1 "pong" VNone
          ∈ emitted loads pong policy Json.cpython world0 (Text "hello")
                    dev1) as Hin.
  { replace (emitted loads pong policy Json.cpython world0 (Text "hello")
                     dev1)
      with [response_payload dev1 "pong" VNone]
      by (vm_compute; reflexivity).
    by apply list_elem_of_singleton. }
  split; [exact Hin|].
  destruct (response_iff_upstream_answers loads pong policy Json.cpython
              world0 (Text "hello") dev1 _ Hin) as (One & Resp & _).
  split; [exact One|]. split; [reflexivity|].
  apply Resp. reflexivity.
Defined.


(** The device of [upgrade_lines], sent as [Device-Id]. *)
Lemma device_id_read_from_lines_witness :
  py_dict (Headers_of_lines upgrade_lines)
  = Some (omap head (Headers_of_lines upgrade_lines))
  ∧ header_values "device-id" upgrade_lines = ["dev-1"]
  ∧ omap head (Headers_of_lines upgrade_lines) !! "device-id"
    = head (header_values "device-id" upgrade_lines)
  ∧ ∀ k, (length (header_values k upgrade_lines) ≤ 1)%nat.
Proof.
  assert (py_dict (Headers_of_lines upgrade_lines)
          = Some (omap head (Headers_of_lines upgrade_lines)))
    as H1 by (vm_compute; reflexivity).
  split; [exact H1|]. split; [reflexivity|].
  exact (device_id_read_from_lines upgrade_lines _ H1).
Defined.

(** The noise message inside a longer log line. *)
Lemma dropped_in_any_context_witness :
  SuppressInvalidHandshakeFilter.filter "opening handshake failed" = false
  ∧ SuppressInvalidHandshakeFilter.filter
      ("ERROR " +:+ "opening handshake failed" +:+ " (peer 10.0.0.7)")
    = false.
Proof.
  assert (SuppressInvalidHandshakeFilter.filter "opening handshake failed"
          = false) as H1 by reflexivity.
  split; [exact H1|].
  exact (dropped_in_any_context "opening handshake failed" "ERROR "
           " (peer 10.0.0.7)" H1).
Defined.

(** The empty message is kept. *)
Lemma short_messages_are_kept_witness :
  String.length "" < 17
  ∧ SuppressInvalidHandshakeFilter.filter "" = true.
Proof.
  assert (String.length "" < 17) as H1 by (simpl; lia).
  split; [exact H1|].
  exact (short_messages_are_kept "" H1).
Defined.

(** The file is found once and then removed. *)
Lemma config_check_passes_once_and_for_all_witness :
  (Settings.check_config_file project_dir
     (only_file "/opt/xiaozhi/data/.config.yaml") false).2 = None
  ∧ Settings.check_each_time project_dir [no_file; no_file]
      (Settings.check_config_file project_dir
         (only_file "/opt/xiaozhi/data/.config.yaml") false).1
    = (true, [None; None]).
Proof.
  assert ((Settings.check_config_file project_dir
             (only_file "/opt/xiaozhi/data/.config.yaml") false).2 = None)
    as H1 by reflexivity.
  split; [exact H1|].
  exact (config_check_passes_once_and_for_all project_dir
           (only_file "/opt/xiaozhi/data/.config.yaml") false
           [no_file; no_file] H1).
Defined.
